(** * Agrinex backend: the recommendation pipeline

    A shallow embedding of [backend/app/services/weather_service.py],
    [irrigation_service.py] and [crop_service.py], followed by the
    properties of the pipeline: gazetteer lookup, the weather gateway's
    fallback, the soil lookups, the irrigation policy and the crop ranking.
    The place search and the forecast analytics of [backend/app/main2.py]
    are embedded as well.

    Conventions of the embedding.
    - A Python [str] is a [string] whose characters are code points below
      256; [Py.lower] and [Py.strip] are Python's on that range.
    - In the services a Python number (int or float) is the rational [Q] it
      denotes and its arithmetic is exact; numeric results are compared with
      [==].  This is what the properties on how numbers compare (thresholds,
      tiers, order, extremes), on table lookups and on which step raises
      are stated on, together with values that doubles carry exactly.
      [Py.round] and [Py.format_f1] round the exact value half-to-even.
    - What floating point arithmetic computes is stated on [binary64]:
      [recommend_irrigation] with its numbers as IEEE 754 doubles, where
      [/] and [round(x, 2)] round as CPython's do.
    - A raising computation returns [Raise e] in the [result] monad; every
      [try ... except Exception] of the source is a [match] on a [result].
    - Everything the services obtain from outside (HTTP provider, clock, the
      text of an exception, the pickled classifiers) is an explicit argument:
      [Py.Runtime] and [Py.Classifier]. *)

From Stdlib Require Import Floats.
From Stdlib Require Import QArith Qround Qabs ZArith String Ascii List Permutation Sorted Lia Lqa.
From stdpp Require Import gmap strings pretty.

#[local] Set Warnings "-register-all,-inexact-float".
#[local] Open Scope string_scope.

(** ** The Python fragment the services use *)

Module Py.

(** *** Strings *)

(** [str.isspace] on one character: TAB..CR, FS..US, space, NEL, NBSP. *)
Definition isspace (c : ascii) : bool :=
  let n := N_of_ascii c in
  ((9 <=? n) && (n <=? 13) || (28 <=? n) && (n <=? 32)
   || (n =? 133) || (n =? 160))%N.

(** [str.lower] on one character: A..Z and the Latin-1 capitals
    (0xC0..0xDE without the multiplication sign 0xD7) move up by 32. *)
Definition lower_char (c : ascii) : ascii :=
  let n := N_of_ascii c in
  if ((65 <=? n) && (n <=? 90)
      || (192 <=? n) && (n <=? 222) && negb (n =? 215))%N
  then ascii_of_N (n + 32) else c.

Fixpoint lower (s : string) : string :=
  match s with
  | EmptyString => EmptyString
  | String c s' => String (lower_char c) (lower s')
  end.

Fixpoint lstrip (s : string) : string :=
  match s with
  | EmptyString => EmptyString
  | String c s' => if isspace c then lstrip s' else s
  end.

Definition rstrip (s : string) : string := String.rev (lstrip (String.rev s)).

(** [s.strip()] with no argument. *)
Definition strip (s : string) : string := rstrip (lstrip s).

(** *** Numbers *)

(** [x < y] and [x > y] as Python evaluates them, to a bool. *)
Definition lt (x y : Q) : bool := negb (Qle_bool y x).
Definition gt (x y : Q) : bool := lt y x.

(** [max(a, b)]: the first argument is kept unless the second is greater. *)
Definition max (a b : Q) : Q := if gt b a then b else a.

Definition round_half_even (x : Q) : Z :=
  let f := Qfloor x in
  match (x - inject_Z f ?= 1 # 2)%Q with
  | Lt => f
  | Gt => (f + 1)%Z
  | Eq => if Z.even f then f else (f + 1)%Z
  end.

(** [round(x, ndigits)] for [ndigits >= 0]. *)
Definition round (x : Q) (ndigits : nat) : Q :=
  let scale := Z.to_pos (10 ^ Z.of_nat ndigits) in
  Qmake (round_half_even (x * inject_Z (Zpos scale))) scale.

(** The format specification [:.1f]. *)
Definition format_f1 (x : Q) : string :=
  let t := Z.abs (round_half_even (x * 10)) in
  (if lt x 0 then "-" else "") +:+ pretty (t / 10)%Z +:+ "." +:+ pretty (t mod 10)%Z.

(** *** Values, exceptions, results *)

(** Objects that come out of [r.json()] and out of a classifier: [None],
    bools, numbers, strings, lists and dicts (a dict by its items, whose
    keys are distinct; JSON keys are strings). *)
Inductive pyval : Type :=
| PNone
| PBool (b : bool)
| PNum (x : Q)
| PStr (s : string)
| PList (xs : list pyval)
| PDict (items : list (string * pyval)).

(** The subclasses of [Exception] that occur: the ones the interpreter
    raises in the code below, and [Thrown] for whatever a collaborator
    (requests, the classifier) raises. *)
Inductive pyexn : Type :=
| KeyError (key : pyval)
| IndexError
| TypeError
| NameError (name : string)
| ZeroDivisionError
| Thrown (class text : string).

Inductive result (A : Type) : Type :=
| Ok (a : A)
| Raise (e : pyexn).
Arguments Ok {A} a.
Arguments Raise {A} e.

#[global] Instance result_bind : MBind result :=
  fun A B f m => match m with Ok a => f a | Raise e => Raise e end.
#[global] Instance result_ret : MRet result := fun A a => Ok a.

(** [x / y]: raises on a zero divisor; the quotient is the exact one. *)
Definition truediv (x y : Q) : result Q :=
  if Qeq_bool y 0 then Raise ZeroDivisionError else Ok (x / y)%Q.

(** [bool(v)]. *)
Definition truth (v : pyval) : bool :=
  match v with
  | PNone => false
  | PBool b => b
  | PNum x => negb (Qeq_bool x 0)
  | PStr s => negb (String.eqb s "")
  | PList xs => match xs with [] => false | _ => true end
  | PDict items => match items with [] => false | _ => true end
  end.

Fixpoint assoc (k : string) (items : list (string * pyval)) : option pyval :=
  match items with
  | [] => None
  | (k', v) :: rest => if String.eqb k k' then Some v else assoc k rest
  end.

(** [v[k]] for a string [k]. *)
Definition getitem (v : pyval) (k : string) : result pyval :=
  match v with
  | PDict items =>
      match assoc k items with
      | Some x => Ok x
      | None => Raise (KeyError (PStr k))
      end
  | _ => Raise TypeError
  end.

(** [v[-1]]. *)
Definition getitem_last (v : pyval) : result pyval :=
  match v with
  | PList xs =>
      match last xs with Some x => Ok x | None => Raise IndexError end
  | PStr s =>
      match last (list_ascii_of_string s) with
      | Some c => Ok (PStr (String c EmptyString))
      | None => Raise IndexError
      end
  | PDict _ => Raise (KeyError (PNum (-1)))
  | _ => Raise TypeError
  end.

(** One step of [sum]: [acc + v]. *)
Definition add (acc : Q) (v : pyval) : result Q :=
  match v with
  | PNum x => Ok (acc + x)%Q
  | PBool b => Ok (acc + (if b then 1 else 0))%Q
  | _ => Raise TypeError
  end.

Fixpoint sum_from (acc : Q) (xs : list pyval) : result Q :=
  match xs with
  | [] => Ok acc
  | v :: rest => acc' ← add acc v; sum_from acc' rest
  end.

(** [sum(v)]: starts from 0 and adds the items [v] iterates over (the
    characters of a string, the keys of a dict). *)
Definition sum (v : pyval) : result Q :=
  match v with
  | PList xs => sum_from 0 xs
  | PStr s => if String.eqb s "" then Ok 0%Q else Raise TypeError
  | PDict items => match items with [] => Ok 0%Q | _ => Raise TypeError end
  | _ => Raise TypeError
  end.

(** A dict display [{k1: v1, ..., kn: vn}]: a later item overrides an
    earlier one with the same key. *)
Definition dict_of_items `{Countable K} {V : Type} (items : list (K * V)) : gmap K V :=
  foldl (fun m kv => <[kv.1 := kv.2]> m) ∅ items.

(** [d.get(k, dflt)]. *)
Definition get `{Countable K} {V : Type} (d : gmap K V) (k : K) (dflt : V) : V :=
  default dflt (d !! k).

(** [d[k]] on a dict with string keys. *)
Definition subscript {V : Type} (d : gmap string V) (k : string) : result V :=
  match d !! k with
  | Some v => Ok v
  | None => Raise (KeyError (PStr k))
  end.

(** Resolving a global name in a module whose top level binds [bound]. *)
Definition load_global (bound : list string) (name : string) : result unit :=
  if bool_decide (name ∈ bound) then Ok () else Raise (NameError name).

(** *** The outside world *)

(** A [requests.Response], by the outcome of the two methods called on it. *)
Record Response : Type := {
  raise_for_status : result unit;
  json : result pyval;
}.

Record Runtime : Type := {
  (** [str(e)] *)
  str : pyexn -> string;
  (** [datetime.utcnow().isoformat()] *)
  utcnow_isoformat : string;
  (** [requests.get(url, params=params, timeout=timeout)] *)
  requests_get : string -> list (string * pyval) -> Z -> result Response;
}.

(** A one-row [pandas.DataFrame], by its columns. *)
Definition DataFrame : Type := list (string * pyval).

(** What [predict_proba] returns: a numpy array of one or of two dimensions. *)
Inductive ndarray : Type :=
| Arr1 (v : list Q)
| Arr2 (rows : list (list Q)).

(** A pickled scikit-learn pipeline, by the members the services use. *)
Record Classifier : Type := {
  predict_proba : DataFrame -> result ndarray;
  predict : DataFrame -> result (list pyval);
  classes_ : list string;
}.

(** *** What the services answer *)

(** A dict with [success: True] and a payload, or with [success: False]
    and an [error] text. *)
Inductive Outcome (A : Type) : Type :=
| Success (a : A)
| Failure (error : string).
Arguments Success {A} a.
Arguments Failure {A} error.

Definition success {A : Type} (o : Outcome A) : bool :=
  match o with Success _ => true | Failure _ => false end.

End Py.

Import Py.

(** ** [weather_service.py] *)

Module weather_service.

Definition OPENMETEO_URL : string := "https://api.open-meteo.com/v1/forecast".

(** The dict [get_openmeteo_weather] returns; [error] is the key that only
    the fallback has. *)
Record Weather : Type := {
  temperature : pyval;
  humidity : pyval;
  rain_24h : Q;
  timestamp : string;
  error : option string;
}.

(** The [params] dict of the request. *)
Definition params (lat lon : Q) : list (string * pyval) :=
  [("latitude", PNum lat); ("longitude", PNum lon);
   ("hourly", PStr "temperature_2m,relative_humidity_2m,precipitation");
   ("forecast_days", PNum 1); ("timezone", PStr "auto")].

(** The body of the [try]. *)
Definition get_openmeteo_weather_try (rt : Runtime) (lat lon : Q) : result Weather :=
  r ← requests_get rt OPENMETEO_URL (params lat lon) 5;
  _ ← raise_for_status r;
  data ← json r;
  hours ← (h ← getitem data "hourly"; getitem h "time");
  temps ← (h ← getitem data "hourly"; getitem h "temperature_2m");
  hums ← (h ← getitem data "hourly"; getitem h "relative_humidity_2m");
  prec ← (h ← getitem data "hourly"; getitem h "precipitation");
  temperature ← getitem_last temps;
  humidity ← getitem_last hums;
  rain_24h ← sum prec;
  mret {| temperature := temperature; humidity := humidity;
          rain_24h := rain_24h; timestamp := utcnow_isoformat rt;
          error := None |}.

Definition fallback (rt : Runtime) (e : pyexn) : Weather :=
  {| temperature := PNum 25.0; humidity := PNum 60.0; rain_24h := 0.0;
     timestamp := utcnow_isoformat rt; error := Some (str rt e) |}.

Definition get_openmeteo_weather (rt : Runtime) (lat lon : Q) : Weather :=
  match get_openmeteo_weather_try rt lat lon with
  | Ok w => w
  | Raise e => fallback rt e
  end.

Definition location_items : list ((string * string) * (Q * Q)) := [
    (* Chhattisgarh *)
    (("chhattisgarh",                "durg"),               (21.1939, 81.2740));
    (("chhattisgarh",                "raipur"),             (21.2514, 81.6296));
    (("chhattisgarh",                "bilaspur"),           (22.0796, 82.1590));
    (("chhattisgarh",                "rajnandgaon"),        (22.5596, 81.3089));
    (* Maharashtra *)
    (("maharashtra",                 "pune"),               (18.5204, 73.8567));
    (("maharashtra",                 "mumbai"),             (19.0760, 72.8777));
    (("maharashtra",                 "nagpur"),             (21.1458, 79.0882));
    (("maharashtra",                 "aurangabad"),         (19.8762, 75.3433));
    (("maharashtra",                 "nashik"),             (19.9975, 73.7898));
    (("maharashtra",                 "kolhapur"),           (16.7050, 74.2433));
    (* Delhi *)
    (("delhi",                       "delhi"),              (28.7041, 77.1025));
    (* Karnataka (Major Districts) *)
    (("karnataka",                   "bangalore"),          (12.9716, 77.5946));
    (("karnataka",                   "bengaluru"),          (12.9716, 77.5946));
    (("karnataka",                   "belagavi"),           (15.8497, 74.4977));
    (("karnataka",                   "belgaum"),            (15.8497, 74.4977));
    (("karnataka",                   "ballari"),            (15.1400, 76.6200));
    (("karnataka",                   "bellary"),            (15.1400, 76.6200));
    (("karnataka",                   "dharwad"),            (15.4589, 75.1342));
    (("karnataka",                   "dharwar"),            (15.4589, 75.1342));
    (("karnataka",                   "hubballi"),           (15.3647, 75.1240));
    (("karnataka",                   "hubli"),              (15.3647, 75.1240));
    (("karnataka",                   "gulbarga"),           (17.3265, 76.4304));
    (("karnataka",                   "kalaburagi"),         (17.3265, 76.4304));
    (("karnataka",                   "tumkur"),             (13.2173, 77.1145));
    (("karnataka",                   "tumkuru"),            (13.2173, 77.1145));
    (("karnataka",                   "mysore"),             (12.2958, 76.6394));
    (("karnataka",                   "mysuru"),             (12.2958, 76.6394));
    (("karnataka",                   "mandya"),             (12.5353, 76.8970));
    (("karnataka",                   "hassan"),             (13.3352, 75.9103));
    (("karnataka",                   "chikmagalur"),        (13.3181, 75.7708));
    (("karnataka",                   "kodagu"),             (12.3381, 75.7273));
    (("karnataka",                   "coorg"),              (12.3381, 75.7273));
    (("karnataka",                   "udupi"),              (13.3408, 74.7421));
    (("karnataka",                   "dakshina kannada"),   (12.6689, 75.3692));
    (("karnataka",                   "mangalore"),          (12.8658, 74.8440));
    (("karnataka",                   "mangaluru"),          (12.8658, 74.8440));
    (("karnataka",                   "uttara kannada"),     (14.4505, 74.6660));
    (("karnataka",                   "chitradurga"),        (14.2267, 75.6760));
    (("karnataka",                   "chikballapur"),       (13.4359, 77.7297));
    (("karnataka",                   "kolar"),              (13.1359, 78.1304));
    (("karnataka",                   "ramanagara"),         (12.7667, 77.2833));
    (("karnataka",                   "davangere"),          (14.4667, 75.9167));
    (("karnataka",                   "davanagere"),         (14.4667, 75.9167));
    (("karnataka",                   "shimoga"),            (13.9299, 75.5681));
    (("karnataka",                   "shivamogga"),         (13.9299, 75.5681));
    (("karnataka",                   "vikarabad"),          (16.9891, 77.1331));
    (("karnataka",                   "yadgir"),             (16.7669, 77.1391));
    (("karnataka",                   "bagalkot"),           (16.1703, 75.6667));
    (("karnataka",                   "bijapur"),            (16.8302, 75.7053));
    (("karnataka",                   "vijayapura"),         (16.8302, 75.7053));
    (* Tamil Nadu *)
    (("tamil nadu",                  "chennai"),            (13.0827, 80.2707));
    (("tamil nadu",                  "coimbatore"),         (11.0168, 76.9558));
    (("tamil nadu",                  "madurai"),            (9.9252, 78.1198));
    (("tamil nadu",                  "salem"),              (11.6643, 78.1460));
    (("tamil nadu",                  "tiruppur"),           (11.3889, 77.3411));
    (("tamil nadu",                  "erode"),              (11.3919, 77.7172));
    (("tamil nadu",                  "trichy"),             (10.7905, 78.7047));
    (("tamil nadu",                  "thanjavur"),          (10.7870, 79.1378));
    (* Telangana *)
    (("telangana",                   "hyderabad"),          (17.3850, 78.4867));
    (("telangana",                   "warangal"),           (17.9689, 79.5941));
    (("telangana",                   "nizamabad"),          (19.2705, 78.0945));
    (* Andhra Pradesh *)
    (("andhra pradesh",              "visakhapatnam"),      (17.6868, 83.2185));
    (("andhra pradesh",              "vijayawada"),         (16.5062, 80.6480));
    (("andhra pradesh",              "tirupati"),           (13.1939, 79.8941));
    (* Uttar Pradesh *)
    (("uttar pradesh",               "lucknow"),            (26.8467, 80.9462));
    (("uttar pradesh",               "kanpur"),             (26.4499, 80.3319));
    (("uttar pradesh",               "varanasi"),           (25.3176, 82.9739));
    (("uttar pradesh",               "agra"),               (27.1767, 78.0081));
    (* West Bengal *)
    (("west bengal",                 "kolkata"),            (22.5726, 88.3639));
    (("west bengal",                 "darjeeling"),         (27.0410, 88.2663));
    (("west bengal",                 "siliguri"),           (26.7271, 88.3953));
    (* Gujarat *)
    (("gujarat",                     "surat"),              (21.1702, 72.8311));
    (("gujarat",                     "ahmedabad"),          (23.0225, 72.5714));
    (("gujarat",                     "vadodara"),           (22.3072, 73.1812));
    (("gujarat",                     "rajkot"),             (22.3039, 70.8022));
    (* Rajasthan *)
    (("rajasthan",                   "jaipur"),             (26.9124, 75.7873));
    (("rajasthan",                   "jodhpur"),            (26.2389, 73.0243));
    (("rajasthan",                   "ajmer"),              (26.4499, 74.6399));
    (("rajasthan",                   "udaipur"),            (24.5854, 73.7125));
    (* Madhya Pradesh *)
    (("madhya pradesh",              "bhopal"),             (23.2599, 77.4126));
    (("madhya pradesh",              "indore"),             (22.7196, 75.8577));
    (("madhya pradesh",              "gwalior"),            (26.2389, 78.1770));
    (("madhya pradesh",              "jabalpur"),           (23.1815, 79.9864));
    (* Bihar *)
    (("bihar",                       "patna"),              (25.5941, 85.1376));
    (("bihar",                       "gaya"),               (24.7955, 84.9994));
    (("bihar",                       "bhagalpur"),          (25.2820, 86.4728));
    (* Haryana *)
    (("haryana",                     "gurugram"),           (28.4595, 77.0266));
    (("haryana",                     "faridabad"),          (28.4089, 77.3178));
    (("haryana",                     "hisar"),              (29.1461, 75.7337));
    (* Punjab *)
    (("punjab",                      "ludhiana"),           (30.9009, 75.8573));
    (("punjab",                      "amritsar"),           (31.6340, 74.8723));
    (("punjab",                      "jalandhar"),          (31.7260, 75.5762));
    (("punjab",                      "chandigarh"),         (30.7333, 76.7794));
    (* Odisha *)
    (("odisha",                      "bhubaneswar"),        (20.2961, 85.8245));
    (("odisha",                      "cuttack"),            (20.4625, 85.8830));
    (("odisha",                      "rourkela"),           (22.2271, 84.8537));
    (* Assam *)
    (("assam",                       "guwahati"),           (26.1863, 91.7668));
    (("assam",                       "dibrugarh"),          (27.4728, 94.9119));
    (* Uttaranchal *)
    (("uttaranchal",                 "dehradun"),           (30.3165, 78.0322));
    (("uttarakhand",                 "dehradun"),           (30.3165, 78.0322));
    (("uttaranchal",                 "nainital"),           (29.3804, 79.4608));
    (("uttarakhand",                 "nainital"),           (29.3804, 79.4608));
    (* Himachal Pradesh *)
    (("himachal pradesh",            "shimla"),             (31.1048, 77.1734));
    (("himachal pradesh",            "manali"),             (32.2541, 77.1882));
    (("himachal pradesh",            "mandi"),              (31.5885, 76.9386));
    (* Meghalaya *)
    (("meghalaya",                   "shillong"),           (25.5687, 91.8832));
    (* Tripura *)
    (("tripura",                     "agartala"),           (23.8317, 91.2868));
    (* Mizoram *)
    (("mizoram",                     "aizawl"),             (23.7148, 92.7299));
    (* Nagaland *)
    (("nagaland",                    "kohima"),             (25.6782, 94.1115));
    (* Arunachal Pradesh *)
    (("arunachal pradesh",           "itanagar"),           (27.1767, 93.6926));
    (* Sikkim *)
    (("sikkim",                      "gangtok"),            (27.7022, 88.5630));
    (* Kerala *)
    (("kerala",                      "thiruvananthapuram"), (8.5241, 76.9366));
    (("kerala",                      "kochi"),              (9.9312, 76.2673));
    (("kerala",                      "kozhikode"),          (11.2588, 75.7804));
    (* Goa *)
    (("goa",                         "panaji"),             (15.2993, 74.1240));
    (("goa",                         "margao"),             (15.2833, 73.9500));
    (* Puducherry *)
    (("puducherry",                  "pondicherry"),        (11.9416, 79.8084));
    (* Jammu and Kashmir *)
    (("jammu and kashmir",           "srinagar"),           (34.0837, 74.8070));
    (("jammu and kashmir",           "jammu"),              (32.7266, 75.8472));
    (* Ladakh *)
    (("ladakh",                      "leh"),                (34.1526, 77.5794));
    (("ladakh",                      "kargil"),             (34.5543, 76.1119));
    (* Andaman and Nicobar *)
    (("andaman and nicobar islands", "port blair"),         (11.7401, 92.7673))
  ]%Q.

Definition location_map : gmap (string * string) (Q * Q) :=
  dict_of_items location_items.

Definition map_location_to_coords (state district : string) : Q * Q :=
  let key := (lower (strip state), lower (strip district)) in
  match location_map !! key with
  | Some coords => coords
  | None => (20.0, 78.0)%Q
  end.

End weather_service.
(** ** [irrigation_service.py] *)

Module irrigation_service.

Import weather_service.

(** The names the module binds at its top level: its imports, its
    constants and its functions.  No builtin is called [appwrite_service]. *)
Definition module_globals : list string :=
  ["joblib"; "np"; "os"; "Dict"; "pd";
   "get_openmeteo_weather"; "map_location_to_coords";
   "BASE_DIR"; "IRRIGATION_MODEL_PATH"; "irrigation_model";
   "SOIL_FEEL_MAP"; "moisture_to_water_mm";
   "recommend_irrigation"; "recommend_irrigation_with_weather"].

Definition SOIL_FEEL_MAP : gmap string Q :=
  dict_of_items [
    ("dry and crumbly", 0.2);
    ("slightly damp", 0.5);
    ("wet and muddy", 0.8)
  ]%Q.

Definition moisture_to_water_mm (moisture_mean : Q) : Q :=
  if lt moisture_mean 0.3 then 20.0
  else if lt moisture_mean 0.5 then 12.0
  else if lt moisture_mean 0.7 then 5.0
  else 0.0.

(** Step 1 of [recommend_irrigation]:
    [SOIL_FEEL_MAP.get(soil_feel.lower(), 0.45)]. *)
Definition soil_feel_moisture (soil_feel : string) : Q :=
  get SOIL_FEEL_MAP (lower soil_feel) 0.45%Q.

(** Step 5 of [recommend_irrigation]: the depth and the reason after the
    two tests on the forecast, [> 10] first. *)
Definition rain_adjust (base_mm forecast_rain_mm_24h : Q) : Q * string :=
  if gt forecast_rain_mm_24h 10 then
    (0.0%Q, "Heavy rain expected (>10mm), skipping irrigation.")
  else if gt forecast_rain_mm_24h 5 then
    ((base_mm * 0.5)%Q,
     "Moderate rain expected (" +:+ format_f1 forecast_rain_mm_24h
       +:+ "mm), reducing irrigation by 50%.")
  else
    (base_mm, "No significant rain expected.").

(** Step 6 of [recommend_irrigation]: the division is evaluated only under
    its guard. *)
Definition duration (base_mm application_rate_mm_per_h : Q) : result Q :=
  if gt application_rate_mm_per_h 0
  then truediv base_mm application_rate_mm_per_h
  else Ok 0.0%Q.

(** The dict of a successful recommendation, without its [success] key. *)
Record Advice : Type := {
  irrigate : bool;
  model_probability : Q;
  moisture_level : Q;
  water_mm : Q;
  duration_hours : Q;
  reason_weather : string;
  application_rate_mm_per_h : Q;
  soil_feel : string;
}.

(** Step 2 of [recommend_irrigation]: the one-row frame, the moisture in
    each of its five columns. *)
Definition features_df (m : Q) : DataFrame :=
  [("moisture1", PNum m); ("moisture2", PNum m); ("moisture3", PNum m);
   ("moisture4", PNum m); ("moisture0", PNum m)].

(** The body of the [try] of [recommend_irrigation]. *)
Definition recommend_irrigation_try (irrigation_model : Classifier)
    (soil_feel : string) (application_rate_mm_per_h forecast_rain_mm_24h : Q)
  : result Advice :=
  let m := soil_feel_moisture soil_feel in
  let features_df := features_df m in
  pred_proba ← predict_proba irrigation_model features_df;
  proba ← match pred_proba with
          | Arr2 rows => match rows with r :: _ => Ok r | [] => Raise IndexError end
          | Arr1 v => Ok v
          end;
  preds ← predict irrigation_model features_df;
  pred ← match preds with p :: _ => Ok p | [] => Raise IndexError end;
  let p_irrigate := match proba with _ :: p1 :: _ => p1 | _ => 0.5%Q end in
  let base_mm := moisture_to_water_mm m in
  let '(base_mm, reason_weather) := rain_adjust base_mm forecast_rain_mm_24h in
  duration_h ← duration base_mm application_rate_mm_per_h;
  mret {| irrigate := truth pred && gt base_mm 0;
          model_probability := p_irrigate;
          moisture_level := m;
          water_mm := round base_mm 2;
          duration_hours := round duration_h 2;
          reason_weather := reason_weather;
          application_rate_mm_per_h := application_rate_mm_per_h;
          soil_feel := soil_feel |}.

Definition recommend_irrigation (rt : Runtime) (irrigation_model : Classifier)
    (soil_feel : string) (application_rate_mm_per_h forecast_rain_mm_24h : Q)
  : Outcome Advice :=
  match recommend_irrigation_try irrigation_model soil_feel
          application_rate_mm_per_h forecast_rain_mm_24h with
  | Ok advice => Success advice
  | Raise e => Failure ("Irrigation recommendation failed: " +:+ str rt e)
  end.

(** The dict [recommend_irrigation_with_weather] builds on top of the
    inner one: the inner keys, the three keys it adds, and the two keys
    [log_irrigation] adds to the dict it is handed (the same object). *)
Record Logged : Type := {
  recommendation : Outcome Advice;
  weather : Weather;
  state : string;
  district : string;
  identity : option (string * string);
}.

(** [core/appwrite.py]: the document store, by the one method used. *)
Record Databases : Type := {
  create_document : string -> string -> string -> Logged -> result unit;
}.

(** [AppwriteService.log_irrigation]: updates [log_data] in place, then
    writes it; a failed write is printed and dropped.  The value is the
    dict after the call. *)
Definition log_irrigation (databases : Databases) (user_id farm_id : string)
    (log_data : Logged) : Logged :=
  let log_data :=
    {| recommendation := recommendation log_data; weather := weather log_data;
       state := state log_data; district := district log_data;
       identity := Some (user_id, farm_id) |} in
  match create_document databases "database-693c561e001f0c948b76"
          "irrigation_logs" "unique()" log_data with
  | Ok _ => log_data
  | Raise _ => log_data
  end.

(** What [recommend_irrigation_with_weather] returns: the dict above, or the
    dict of its own [except] branch. *)
Inductive Reply : Type :=
| Returned (r : Logged)
| Failed (error : string).

(** The amount of rain handed to [recommend_irrigation]: the local
    [rain_24h] of [recommend_irrigation_with_weather]. *)
Definition forecast_rain (rt : Runtime) (state_name district_name : string) : Q :=
  let '(lat, lon) := map_location_to_coords state_name district_name in
  rain_24h (get_openmeteo_weather rt lat lon).

(** The body of the [try] of [recommend_irrigation_with_weather]. *)
Definition recommend_irrigation_with_weather_try (rt : Runtime)
    (databases : Databases) (irrigation_model : Classifier)
    (soil_feel : string) (application_rate_mm_per_h : Q)
    (state_name district_name : string) : result Logged :=
  let '(lat, lon) := map_location_to_coords state_name district_name in
  let weather := get_openmeteo_weather rt lat lon in
  let rain_24h := rain_24h weather in
  let result := recommend_irrigation rt irrigation_model soil_feel
                  application_rate_mm_per_h rain_24h in
  let result :=
    {| recommendation := result; weather := weather; state := state_name;
       district := district_name; identity := None |} in
  if success (recommendation result) then
    _ ← load_global module_globals "appwrite_service";
    mret (log_irrigation databases "temp_user" "temp_farm" result)
  else
    mret result.

Definition recommend_irrigation_with_weather (rt : Runtime)
    (databases : Databases) (irrigation_model : Classifier)
    (soil_feel : string) (application_rate_mm_per_h : Q)
    (state_name district_name : string) : Reply :=
  match recommend_irrigation_with_weather_try rt databases irrigation_model
          soil_feel application_rate_mm_per_h state_name district_name with
  | Ok r => Returned r
  | Raise e =>
      Failed ("Weather-based irrigation recommendation failed: " +:+ str rt e)
  end.

End irrigation_service.

(** ** [crop_service.py] *)

Module crop_service.

Import weather_service.

Record NPK : Type := { N : Z; P : Z; K : Z }.

Definition SOIL_QUALITY_MAP : gmap string NPK :=
  dict_of_items [
    ("Poor", {| N := 20; P := 10; K := 10 |});
    ("Medium", {| N := 50; P := 25; K := 25 |});
    ("Rich", {| N := 90; P := 40; K := 40 |})
  ].

Definition SOIL_TYPE_MAP : gmap string Q :=
  dict_of_items [
    ("Sandy", 6.5);
    ("Loam", 7.0);
    ("Clay", 7.5);
    ("Red", 6.0);
    ("Black", 8.0);
    ("Laterite", 5.5);
    ("Alluvial", 7.2);
    ("Mixed", 6.8)
  ]%Q.

(** One entry of [crop_probs]. *)
Record CropProb : Type := { crop : string; probability : Q }.

Record SoilParams : Type := {
  soil_type : string;
  soil_quality : string;
  N_req_kg_per_ha : Z;
  P_req_kg_per_ha : Z;
  K_req_kg_per_ha : Z;
  pH : Q;
}.

(** The dict of a successful recommendation, without its [success] key. *)
Record Advice : Type := {
  recommended_crops : list CropProb;
  soil_params : SoilParams;
  weather : Weather;
  state : string;
  district : string;
}.

(** [crop_probs.sort(key=lambda x: x["probability"], reverse=True)].
    Python's sort is stable, also under [reverse=True]: entries of equal
    probability keep their order.  That fixes the outcome, which is
    computed here by insertion: an entry goes in front of the first entry
    that is not greater. *)
Fixpoint insert_desc (x : CropProb) (l : list CropProb) : list CropProb :=
  match l with
  | [] => [x]
  | y :: l' =>
      if gt (probability y) (probability x) then y :: insert_desc x l'
      else x :: l
  end.

Definition sort_desc (l : list CropProb) : list CropProb :=
  foldr insert_desc [] l.

(** The [sample] dict, as the one row of [df_sample]. *)
Definition sample (npk : NPK) (temp humidity : pyval) (ph_val rainfall_mm : Q)
    (state_name : string) : DataFrame :=
  [("N_req_kg_per_ha", PNum (inject_Z (N npk)));
   ("P_req_kg_per_ha", PNum (inject_Z (P npk)));
   ("K_req_kg_per_ha", PNum (inject_Z (K npk)));
   ("Temperature_C", temp);
   ("Humidity_%", humidity);
   ("pH", PNum ph_val);
   ("Rainfall_mm", PNum rainfall_mm);
   ("State Name", PStr state_name)].

(** Steps 1 to 4 of [recommend_crops]: the soil lookups, the weather and
    the row handed to the classifier. *)
Definition features (rt : Runtime) (soil_type soil_quality : string)
    (state_name district_name : string) : result (NPK * Q * Weather * DataFrame) :=
  medium ← subscript SOIL_QUALITY_MAP "Medium";
  let npk := get SOIL_QUALITY_MAP soil_quality medium in
  let ph_val := get SOIL_TYPE_MAP soil_type 7.0%Q in
  let '(lat, lon) := map_location_to_coords state_name district_name in
  let weather := get_openmeteo_weather rt lat lon in
  let temp := temperature weather in
  let humidity := humidity weather in
  let rainfall_mm := max (rain_24h weather) 0.0 in
  mret (npk, ph_val, weather,
        sample npk temp humidity ph_val rainfall_mm state_name).

(** Step 5 of [recommend_crops]: [proba[0]] zipped with [classes_], sorted.
    Indexing an empty array raises; so does [zip] over the scalar that
    [proba[0]] is when the array has one dimension. *)
Definition rank (classes : list string) (proba : ndarray) : result (list CropProb) :=
  row ← match proba with
        | Arr2 (r :: _) => Ok r
        | Arr2 [] => Raise IndexError
        | Arr1 (_ :: _) => Raise TypeError
        | Arr1 [] => Raise IndexError
        end;
  let crop_probs :=
    zip_with (fun cls p => {| crop := cls; probability := p |}) classes row in
  mret (sort_desc crop_probs).

(** The body of the [try] of [recommend_crops]. *)
Definition recommend_crops_try (rt : Runtime) (crop_model : Classifier)
    (soil_type soil_quality state_name district_name : string) : result Advice :=
  '(npk, ph_val, weather, df_sample) ←
    features rt soil_type soil_quality state_name district_name;
  proba ← predict_proba crop_model df_sample;
  crop_probs ← rank (classes_ crop_model) proba;
  mret {| recommended_crops := take 5 crop_probs;
          soil_params :=
            {| soil_type := soil_type; soil_quality := soil_quality;
               N_req_kg_per_ha := N npk; P_req_kg_per_ha := P npk;
               K_req_kg_per_ha := K npk; pH := ph_val |};
          weather := weather;
          state := state_name;
          district := district_name |}.

Definition recommend_crops (rt : Runtime) (crop_model : Classifier)
    (soil_type soil_quality state_name district_name : string)
  : Outcome Advice :=
  match recommend_crops_try rt crop_model soil_type soil_quality
          state_name district_name with
  | Ok advice => Success advice
  | Raise e =>
      Failure ("Crop recommendation failed: " +:+ str rt e)
  end.

(** The order the ranking establishes: no entry is followed by a more
    probable one. *)
Definition not_below (a b : CropProb) : Prop :=
  (probability b <= probability a)%Q.

(** Membership in the class of entries of probability [p]. *)
Definition has_probability (p : Q) (c : CropProb) : bool :=
  Qeq_bool (probability c) p.

End crop_service.

(** ** Fixtures: one concrete outside world *)

Module fixtures.

Import weather_service.

(** A rendering of exceptions: CPython's text for a [NameError], the text a
    collaborator attached to what it threw, the class name otherwise. *)
Definition show (e : pyexn) : string :=
  match e with
  | NameError name => "name '" +:+ name +:+ "' is not defined"
  | Thrown _ text => text
  | KeyError _ => "KeyError"
  | IndexError => "IndexError"
  | TypeError => "TypeError"
  | ZeroDivisionError => "ZeroDivisionError"
  end.

(** A provider answer with the given hourly precipitation series. *)
Definition hourly_body (prec : list pyval) : pyval :=
  PDict [("hourly",
          PDict [("time", PList [PStr "2025-06-01T00:00"; PStr "2025-06-01T01:00"]);
                 ("temperature_2m", PList [PNum 29.5; PNum 31.0]);
                 ("relative_humidity_2m", PList [PNum 70; PNum 64]);
                 ("precipitation", PList prec)])].

Definition provider (answer : result Response) : Runtime :=
  {| str := show;
     utcnow_isoformat := "2025-06-01T02:00:00";
     requests_get := fun _ _ _ => answer |}.

(** The provider answers 200 with a well-formed body. *)
Definition online (prec : list pyval) : Runtime :=
  provider (Ok {| raise_for_status := Ok (); json := Ok (hourly_body prec) |}).

(** The request times out. *)
Definition timed_out : Runtime :=
  provider (Raise (Thrown "ReadTimeout" "Read timed out. (read timeout=5)")).

(** An irrigation classifier that predicts class 1 with probability 0.7. *)
Definition eager_model : Classifier :=
  {| predict_proba := fun _ => Ok (Arr2 [[0.3; 0.7]%Q]);
     predict := fun _ => Ok [PNum 1];
     classes_ := ["0"; "1"] |}.

(** A crop classifier over three labels. *)
Definition three_crops : Classifier :=
  {| predict_proba := fun _ => Ok (Arr2 [[0.1; 0.6; 0.3]%Q]);
     predict := fun _ => Ok [PStr "Rice"];
     classes_ := ["Wheat"; "Rice"; "Maize"] |}.

(** A document store whose writes fail. *)
Definition store_down : irrigation_service.Databases :=
  {| irrigation_service.create_document :=
       fun _ _ _ _ => Raise (Thrown "AppwriteException" "Server Error") |}.

End fixtures.

(** ** Vocabulary of the further properties *)

Module readings.

(** What [sum] can add to a number: a number or a bool. *)
Definition addable (v : pyval) : bool :=
  match v with
  | PNum _ | PBool _ => true
  | _ => false
  end.

(** A reading that is not a negative number. *)
Definition not_negative (v : pyval) : Prop :=
  match v with
  | PNum x => (0 <= x)%Q
  | _ => True
  end.

End readings.

(** ** [main2.py]: the place search and the forecast analytics *)

Module main2.

Import readings.

Definition WEATHER_API_KEY : string := "4797b38d80ea463a9b9123633251212".
Definition WEATHER_BASE : string := "https://api.weatherapi.com/v1".

(** How a request to an endpoint ends: with an answer, with the
    [HTTPException] the endpoint raises, or with another exception that
    nothing in the endpoint catches. *)
Inductive Handled (A : Type) : Type :=
| Answer (a : A)
| HTTPException (status_code : Z) (detail : string)
| Unhandled (e : pyexn).
Arguments Answer {A} a.
Arguments HTTPException {A} status_code detail.
Arguments Unhandled {A} e.

(** The items a [for] loop over [v] visits: the elements of a list, the
    keys of a dict, the characters of a string. *)
Definition iterate (v : pyval) : result (list pyval) :=
  match v with
  | PList xs => Ok xs
  | PDict items => Ok (PStr <$> (fst <$> items))
  | PStr s => Ok ((fun c => PStr (String c EmptyString)) <$> list_ascii_of_string s)
  | _ => Raise TypeError
  end.

(** *** [geocode] *)

(** Values that can be part of a dict key. *)
Definition hashable (v : pyval) : bool :=
  match v with
  | PList _ | PDict _ => false
  | _ => true
  end.

(** [a == b] on hashable values; [True] and [False] equal 1 and 0. *)
Definition equal (a b : pyval) : bool :=
  match a, b with
  | PNone, PNone => true
  | PStr s, PStr t => String.eqb s t
  | PNum x, PNum y => Qeq_bool x y
  | PBool x, PBool y => Bool.eqb x y
  | PBool x, PNum y => Qeq_bool (if x then 1 else 0) y
  | PNum x, PBool y => Qeq_bool x (if y then 1 else 0)
  | _, _ => false
  end.

Definition Key : Type := pyval * pyval * pyval.

Definition same_key (k1 k2 : Key) : bool :=
  equal k1.1.1 k2.1.1 && equal k1.1.2 k2.1.2 && equal k1.2 k2.2.

(** The tuple [(item["name"], item["region"], item["country"])], and the
    hashing of it by [key not in unique]. *)
Definition key_of (item : pyval) : result Key :=
  name ← getitem item "name";
  region ← getitem item "region";
  country ← getitem item "country";
  if hashable name && hashable region && hashable country
  then Ok (name, region, country)
  else Raise TypeError.

(** The loop that fills [unique], a dict in insertion order. *)
Fixpoint collect (unique : list (Key * pyval)) (items : list pyval)
  : result (list (Key * pyval)) :=
  match items with
  | [] => Ok unique
  | item :: rest =>
      key ← key_of item;
      if existsb (fun entry => same_key key entry.1) unique
      then collect unique rest
      else collect (unique ++ [(key, item)]) rest
  end.

(** An entry of [unique] is stored under the key of its item. *)
Definition keyed (entry : Key * pyval) : Prop := key_of entry.2 = Ok entry.1.

(** An older and a newer entry of [unique] have different keys. *)
Definition apart (older newer : Key * pyval) : Prop :=
  same_key older.1 newer.1 = false.

(** One dict of [final]. *)
Record Place : Type := {
  name : pyval;
  region : pyval;
  country : pyval;
  lat : pyval;
  lon : pyval;
}.

(** The key an entry of [final] was stored under. *)
Definition place_key (p : Place) : Key := (name p, region p, country p).

Definition place_of (v : pyval) : result Place :=
  name ← getitem v "name";
  region ← getitem v "region";
  country ← getitem v "country";
  lat ← getitem v "lat";
  lon ← getitem v "lon";
  mret {| name := name; region := region; country := country;
          lat := lat; lon := lon |}.

Fixpoint places (vs : list pyval) : result (list Place) :=
  match vs with
  | [] => Ok []
  | v :: rest => p ← place_of v; ps ← places rest; mret (p :: ps)
  end.

(** [geocode(q)].  [client_get_json url] is the outcome of
    [client.get(url)] followed by [res.json()]. *)
Definition search_url (q : string) : string :=
  WEATHER_BASE +:+ "/search.json?key=" +:+ WEATHER_API_KEY +:+ "&q=" +:+ q.

Definition geocode (client_get_json : string -> result pyval) (q : string)
  : Handled (list Place) :=
  let url := search_url q in
  match client_get_json url with
  | Raise e => Unhandled e
  | Ok data =>
      if negb (truth data) then HTTPException 404 "Location not found"
      else
        match (items ← iterate data;
               unique ← collect [] items;
               places (snd <$> unique)) with
        | Ok final => Answer final
        | Raise e => Unhandled e
        end
  end.

(** *** [get_analytics] *)

Record AnalyticsOut : Type := {
  avgTemp : Q;
  maxTemp : Q;
  minTemp : Q;
  totalRainfall : Q;
  avgHumidity : Q;
  avgWindSpeed : Q;
  extremeDays : Z;
}.

(** The number a value stands for in a comparison with a number. *)
Definition number (v : pyval) : result Q :=
  match v with
  | PNum x => Ok x
  | PBool b => Ok (if b then 1 else 0)%Q
  | _ => Raise TypeError
  end.

(** The test [day["maxtemp_c"] > 40 or day["mintemp_c"] < 5]: the second
    subscript is evaluated only when the first comparison is false. *)
Definition is_extreme (day : pyval) : result bool :=
  maxtemp ← getitem day "maxtemp_c";
  high ← number maxtemp;
  if gt high 40 then Ok true
  else
    mintemp ← getitem day "mintemp_c";
    low ← number mintemp;
    Ok (lt low 5).

(** The four lists and the counter, as the loop leaves them. *)
Record Series : Type := {
  temps : list pyval;
  rains : list pyval;
  hums : list pyval;
  winds : list pyval;
  extreme_days : Z;
}.

Fixpoint gather (acc : Series) (data : list pyval) : result Series :=
  match data with
  | [] => Ok acc
  | d :: rest =>
      day ← getitem d "day";
      t ← getitem day "avgtemp_c";
      r ← getitem day "totalprecip_mm";
      h ← getitem day "avghumidity";
      w ← getitem day "maxwind_kph";
      extreme ← is_extreme day;
      gather {| temps := temps acc ++ [t]; rains := rains acc ++ [r];
                hums := hums acc ++ [h]; winds := winds acc ++ [w];
                extreme_days :=
                  if (extreme : bool) then (extreme_days acc + 1)%Z
                  else extreme_days acc |} rest
  end.

(** [sum(xs) / len(xs)]. *)
Definition mean (xs : list pyval) : result Q :=
  total ← sum (PList xs);
  truediv total (inject_Z (Z.of_nat (length xs))).

(** [max(xs)] and [min(xs)] where the endpoint calls them: after
    [sum(xs) / len(xs)] has returned, so on a list that is not empty and
    holds numbers and bools only.  The first of several greatest (least)
    elements is kept. *)
Fixpoint max_from (best : Q) (xs : list pyval) : result Q :=
  match xs with
  | [] => Ok best
  | v :: rest => x ← number v; max_from (if gt x best then x else best) rest
  end.

Fixpoint min_from (best : Q) (xs : list pyval) : result Q :=
  match xs with
  | [] => Ok best
  | v :: rest => x ← number v; min_from (if lt x best then x else best) rest
  end.

Definition max_of (xs : list pyval) : result Q :=
  match xs with
  | [] => Raise (Thrown "ValueError" "max() arg is an empty sequence")
  | v :: rest => x ← number v; max_from x rest
  end.

Definition min_of (xs : list pyval) : result Q :=
  match xs with
  | [] => Raise (Thrown "ValueError" "min() arg is an empty sequence")
  | v :: rest => x ← number v; min_from x rest
  end.

(** [get_analytics], from the outcome [fetched] of [client.get(url)]
    followed by [res.json()]. *)
Definition get_analytics (fetched : result pyval) : Handled AnalyticsOut :=
  match (body ← fetched;
         forecast ← getitem body "forecast";
         data ← getitem forecast "forecastday";
         days ← iterate data;
         s ← gather {| temps := []; rains := []; hums := []; winds := [];
                       extreme_days := 0 |} days;
         avgTemp ← mean (temps s);
         maxTemp ← max_of (temps s);
         minTemp ← min_of (temps s);
         totalRainfall ← sum (PList (rains s));
         avgHumidity ← mean (hums s);
         avgWindSpeed ← mean (winds s);
         mret {| avgTemp := avgTemp; maxTemp := maxTemp; minTemp := minTemp;
                 totalRainfall := totalRainfall; avgHumidity := avgHumidity;
                 avgWindSpeed := avgWindSpeed;
                 extremeDays := extreme_days s |}) with
  | Ok out => Answer out
  | Raise e => Unhandled e
  end.

End main2.

(** ** Further fixtures *)

Module scenarios.

(** The provider answers 200 with hourly series that hold no hour. *)
Definition no_hours : Runtime :=
  fixtures.provider
    (Ok {| raise_for_status := Ok ();
           json := Ok (PDict [("hourly",
                               PDict [("time", PList []);
                                      ("temperature_2m", PList []);
                                      ("relative_humidity_2m", PList []);
                                      ("precipitation", PList [])])]) |}).

(** An irrigation classifier that knows one class only. *)
Definition one_class_model : Classifier :=
  {| predict_proba := fun _ => Ok (Arr2 [[1.0]%Q]);
     predict := fun _ => Ok [PNum 0];
     classes_ := ["0"] |}.

(** A crop classifier over seven labels. *)
Definition seven_crops : Classifier :=
  {| predict_proba :=
       fun _ => Ok (Arr2 [[0.05; 0.30; 0.10; 0.20; 0.05; 0.25; 0.05]%Q]);
     predict := fun _ => Ok [PStr "Rice"];
     classes_ := ["Wheat"; "Rice"; "Maize"; "Cotton"; "Millet"; "Sugarcane";
                  "Barley"] |}.

Definition found (name region country : string) (lat lon : Q) : pyval :=
  PDict [("id", PNum 1); ("name", PStr name); ("region", PStr region);
         ("country", PStr country); ("lat", PNum lat); ("lon", PNum lon)].

Definition salem_tn : pyval := found "Salem" "Tamil Nadu" "India" 11.65 78.17.
Definition salem_or : pyval := found "Salem" "Oregon" "USA" 44.94 (-123.03).
Definition salem_tn_again : pyval := found "Salem" "Tamil Nadu" "India" 11.66 78.15.

(** A search whose answer repeats a place. *)
Definition search (url : string) : result pyval :=
  Ok (PList [salem_tn; salem_or; salem_tn_again]).

(** A search that finds nothing. *)
Definition search_nothing (url : string) : result pyval := Ok (PList []).

Definition forecast_day (avg high low rain : Q) : pyval :=
  PDict [("date", PStr "2025-06-01");
         ("day", PDict [("maxtemp_c", PNum high); ("mintemp_c", PNum low);
                        ("avgtemp_c", PNum avg); ("totalprecip_mm", PNum rain);
                        ("avghumidity", PNum 55); ("maxwind_kph", PNum 12.5)])].

Definition forecast (days : list pyval) : pyval :=
  PDict [("forecast", PDict [("forecastday", PList days)])].

(** A forecast of three days, the second one above 40 degrees. *)
Definition three_days : pyval :=
  forecast [forecast_day 30 36 24 0; forecast_day 35 42 28 0;
            forecast_day 28 33 23 4.5].

End scenarios.

(** ** [irrigation_service.py] on binary64 *)

(** [recommend_irrigation] once more, with its numbers as CPython has them:
    IEEE 754 doubles.  Comparisons are the IEEE ones (false on a NaN), [*]
    and [/] round to nearest, [/] raises on a zero divisor of either sign
    and [round(x, 2)] is the double nearest to the two-decimal rounding of
    the exact value of [x].  What the advisor computes, as opposed to how
    its results compare, is stated on this module. *)

Module binary64.

Local Open Scope float_scope.

(** *** Floats *)

(** The rational a finite double is; an infinity and a NaN have none. *)
Definition exact (x : float) : option Q :=
  match Prim2SF x with
  | S754_zero _ => Some 0%Q
  | S754_finite s m e =>
      Some ((if s then -1 else 1) * inject_Z (Zpos m) * Qpower 2 e)%Q
  | _ => None
  end.

(** The sign bit. *)
Definition negative (x : float) : bool :=
  match Prim2SF x with
  | S754_zero s | S754_infinity s | S754_finite s _ _ => s
  | S754_nan => false
  end.

(** [round(x, 2)].  An infinity, a NaN and a zero are returned as they are.
    Otherwise the exact value is rounded half-to-even to a whole number [n]
    of hundredths, and the result is the double nearest to [n / 100] with
    the sign of [x]: [n] below 2^53 and 100 are doubles, so that is their
    quotient.  From 2^53 hundredths on, doubles are more than a hundredth
    apart and [x] is itself the nearest one. *)
Definition round2 (x : float) : float :=
  match exact x with
  | None => x
  | Some q =>
      if Qeq_bool q 0 then x
      else
        let n := round_half_even (Qabs q * 100) in
        if (n <? 2 ^ 53)%Z then
          let r := of_uint63 (Uint63.of_Z n) / 100 in
          if negative x then - r else r
        else x
  end.

(** The format specification [:.1f]. *)
Definition format_f1 (x : float) : string :=
  match Prim2SF x with
  | S754_nan => "nan"
  | S754_infinity s => if s then "-inf" else "inf"
  | _ =>
      match exact x with
      | Some q =>
          let t := round_half_even (Qabs q * 10) in
          (if negative x then "-" else "") +:+ pretty (t / 10)%Z +:+ "."
            +:+ pretty (t mod 10)%Z
      | None => ""
      end
  end.

(** [x / y] on floats. *)
Definition truediv (x y : float) : result float :=
  if y =? 0 then Raise ZeroDivisionError else Ok (x / y).

(** *** The classifier *)

(** The one-row frame, by its columns. *)
Definition DataFrame : Type := list (string * float).

Inductive ndarray : Type :=
| Arr1 (v : list float)
| Arr2 (rows : list (list float)).

(** The pickled pipeline, by the two methods [recommend_irrigation] calls. *)
Record Classifier : Type := {
  predict_proba : DataFrame -> result ndarray;
  predict : DataFrame -> result (list pyval);
}.

(** *** The advisor *)

Definition SOIL_FEEL_MAP : gmap string float :=
  dict_of_items [
    ("dry and crumbly", 0.2);
    ("slightly damp", 0.5);
    ("wet and muddy", 0.8)
  ].

Definition moisture_to_water_mm (moisture_mean : float) : float :=
  if moisture_mean <? 0.3 then 20.0
  else if moisture_mean <? 0.5 then 12.0
  else if moisture_mean <? 0.7 then 5.0
  else 0.0.

Definition soil_feel_moisture (soil_feel : string) : float :=
  get SOIL_FEEL_MAP (lower soil_feel) 0.45.

Definition rain_adjust (base_mm forecast_rain_mm_24h : float) : float * string :=
  if 10 <? forecast_rain_mm_24h then
    (0.0, "Heavy rain expected (>10mm), skipping irrigation.")
  else if 5 <? forecast_rain_mm_24h then
    (base_mm * 0.5,
     "Moderate rain expected (" +:+ format_f1 forecast_rain_mm_24h
       +:+ "mm), reducing irrigation by 50%.")
  else
    (base_mm, "No significant rain expected.").

(** [base_mm / application_rate_mm_per_h if application_rate_mm_per_h > 0
    else 0.0]. *)
Definition duration (base_mm application_rate_mm_per_h : float) : result float :=
  if 0 <? application_rate_mm_per_h
  then truediv base_mm application_rate_mm_per_h
  else Ok 0.0.

Record Advice : Type := {
  irrigate : bool;
  model_probability : float;
  moisture_level : float;
  water_mm : float;
  duration_hours : float;
  reason_weather : string;
  application_rate_mm_per_h : float;
  soil_feel : string;
}.

Definition features_df (m : float) : DataFrame :=
  [("moisture1", m); ("moisture2", m); ("moisture3", m);
   ("moisture4", m); ("moisture0", m)].

(** The body of the [try] of [recommend_irrigation]. *)
Definition recommend_irrigation_try (irrigation_model : Classifier)
    (soil_feel : string) (application_rate_mm_per_h forecast_rain_mm_24h : float)
  : result Advice :=
  let m := soil_feel_moisture soil_feel in
  let features_df := features_df m in
  pred_proba ← predict_proba irrigation_model features_df;
  proba ← match pred_proba with
          | Arr2 rows => match rows with r :: _ => Ok r | [] => Raise IndexError end
          | Arr1 v => Ok v
          end;
  preds ← predict irrigation_model features_df;
  pred ← match preds with p :: _ => Ok p | [] => Raise IndexError end;
  let p_irrigate := match proba with _ :: p1 :: _ => p1 | _ => 0.5 end in
  let base_mm := moisture_to_water_mm m in
  let '(base_mm, reason_weather) := rain_adjust base_mm forecast_rain_mm_24h in
  duration_h ← duration base_mm application_rate_mm_per_h;
  mret {| irrigate := truth pred && (0 <? base_mm);
          model_probability := p_irrigate;
          moisture_level := m;
          water_mm := round2 base_mm;
          duration_hours := round2 duration_h;
          reason_weather := reason_weather;
          application_rate_mm_per_h := application_rate_mm_per_h;
          soil_feel := soil_feel |}.

Definition recommend_irrigation (rt : Runtime) (irrigation_model : Classifier)
    (soil_feel : string) (application_rate_mm_per_h forecast_rain_mm_24h : float)
  : Outcome Advice :=
  match recommend_irrigation_try irrigation_model soil_feel
          application_rate_mm_per_h forecast_rain_mm_24h with
  | Ok advice => Success advice
  | Raise e => Failure ("Irrigation recommendation failed: " +:+ str rt e)
  end.

(** *** Fixtures *)

(** A classifier that predicts class 1 with probability 0.7. *)
Definition eager_model : Classifier :=
  {| predict_proba := fun _ => Ok (Arr2 [[0.3; 0.7]]);
     predict := fun _ => Ok [PNum 1] |}.

End binary64.

(** * Properties *)

(** ** Numbers *)

Section Numbers.

Local Open Scope Q_scope.

Lemma lt_true (x y : Q) : lt x y = true <-> x < y.
Proof.
  unfold lt. destruct (Qle_bool y x) eqn:E; simpl.
  - apply Qle_bool_iff in E. split; [discriminate |].
    intros H. now apply Qlt_not_le in H.
  - split; [intros _ | reflexivity].
    apply Qnot_le_lt. intros H. apply Qle_bool_iff in H. congruence.
Qed.

Lemma lt_false (x y : Q) : lt x y = false <-> y <= x.
Proof. unfold lt. rewrite negb_false_iff. apply Qle_bool_iff. Qed.

Lemma gt_true (x y : Q) : gt x y = true <-> y < x.
Proof. apply lt_true. Qed.

Lemma gt_false (x y : Q) : gt x y = false <-> x <= y.
Proof. apply lt_false. Qed.

Lemma max_lower_bound (a b : Q) : b <= max a b.
Proof.
  unfold max. destruct (gt b a) eqn:E; [apply Qle_refl |].
  now apply gt_false in E.
Qed.

Lemma round_half_even_proper (x y : Q) :
  x == y -> round_half_even x = round_half_even y.
Proof.
  intros E. unfold round_half_even.
  rewrite <- (Qfloor_comp _ _ E).
  assert (x - inject_Z (Qfloor x) == y - inject_Z (Qfloor x)) as D by lra.
  now rewrite (Qcompare_comp _ _ D _ _ (Qeq_refl (1 # 2))).
Qed.

Lemma round_proper (x y : Q) (n : nat) : x == y -> round x n = round y n.
Proof.
  intros E. unfold round. f_equal.
  apply round_half_even_proper. apply Qmult_comp; [exact E | reflexivity].
Qed.

End Numbers.

(** ** Dict displays *)

Section Dicts.

Context `{Countable K} {V : Type}.

Lemma foldl_insert_lookup_None (items : list (K * V)) (m : gmap K V) (k : K) :
  foldl (fun m kv => <[kv.1 := kv.2]> m) m items !! k = None
  <-> m !! k = None /\ k ∉ items.*1.
Proof.
  revert m. induction items as [| [k' v] items IH]; intros m; simpl.
  - split; [intros E; split; [exact E | apply not_elem_of_nil] | tauto].
  - rewrite IH, lookup_insert_None, not_elem_of_cons. simpl.
    split; [intros [[? ?] ?] | intros [? [? ?]]]; repeat split; auto.
Qed.

(** A key has no entry in a dict display exactly when no item carries it. *)
Lemma dict_of_items_lookup_None (items : list (K * V)) (k : K) :
  dict_of_items items !! k = None <-> k ∉ items.*1.
Proof.
  unfold dict_of_items. rewrite foldl_insert_lookup_None, lookup_empty. tauto.
Qed.

Lemma get_missing (d : gmap K V) (k : K) (dflt : V) :
  d !! k = None -> get d k dflt = dflt.
Proof. unfold get. now intros ->. Qed.

Lemma get_present (d : gmap K V) (k : K) (dflt v : V) :
  d !! k = Some v -> get d k dflt = v.
Proof. unfold get. now intros ->. Qed.

End Dicts.

(** ** The gazetteer *)

Section Gazetteer.

Import weather_service.

(** The table has 122 entries and no key twice. *)
Lemma location_items_keys_distinct :
  length location_items = 122%nat /\ size location_map = 122%nat.
Proof. split; vm_compute; reflexivity. Qed.

(** The answer depends on the normalized pair only. *)
Lemma map_location_to_coords_normalized (s1 d1 s2 d2 : string) :
  lower (strip s1) = lower (strip s2) ->
  lower (strip d1) = lower (strip d2) ->
  map_location_to_coords s1 d1 = map_location_to_coords s2 d2.
Proof. unfold map_location_to_coords. now intros -> ->. Qed.

Lemma map_location_to_coords_known (state district : string) (coords : Q * Q) :
  location_map !! (lower (strip state), lower (strip district)) = Some coords ->
  map_location_to_coords state district = coords.
Proof. unfold map_location_to_coords. now intros ->. Qed.

(** A pair that no row of the table lists has no entry. *)
Lemma map_location_to_coords_not_listed (state district : string) :
  (lower (strip state), lower (strip district)) ∉ location_items.*1 ->
  map_location_to_coords state district = (20.0, 78.0)%Q.
Proof.
  intros E. apply dict_of_items_lookup_None in E.
  unfold map_location_to_coords. fold location_map in E. now rewrite E.
Qed.

(** C5.  [map_location_to_coords] is a total function of its two strings.
    It looks up the pair of the stripped, lowercased strings; when that
    pair is not a key of [location_map] the answer is the fixed coordinate
    (20.0, 78.0).  The alias keys ("karnataka", "bangalore") and
    ("karnataka", "bengaluru") both give (12.9716, 77.5946). *)
Theorem map_location_to_coords_unknown (state district : string) :
  location_map !! (lower (strip state), lower (strip district)) = None ->
  map_location_to_coords state district = (20.0, 78.0)%Q
  /\ map_location_to_coords "karnataka" "bangalore" = (12.9716, 77.5946)%Q
  /\ map_location_to_coords "karnataka" "bengaluru" = (12.9716, 77.5946)%Q.
Proof.
  intros E. split; [| split].
  - unfold map_location_to_coords. now rewrite E.
  - vm_compute. reflexivity.
  - vm_compute. reflexivity.
Qed.

Lemma map_location_to_coords_unknown_witness :
  location_map !! (lower (strip " Atlantis "), lower (strip "Nowhere")) = None
  /\ map_location_to_coords " Atlantis " "Nowhere" = (20.0, 78.0)%Q.
Proof.
  assert (location_map !! (lower (strip " Atlantis "), lower (strip "Nowhere")) = None)
    as E by (vm_compute; reflexivity).
  split; [exact E |].
  exact (proj1 (map_location_to_coords_unknown " Atlantis " "Nowhere" E)).
Defined.

(** Spelling variants of a known place resolve like the key itself. *)
Example map_location_to_coords_spelling :
  map_location_to_coords "  Karnataka" "BENGALURU " = (12.9716, 77.5946)%Q
  /\ map_location_to_coords "Chhattisgarh" "Durg" = (21.1939, 81.2740)%Q.
Proof. split; vm_compute; reflexivity. Qed.

End Gazetteer.

(** ** The weather gateway *)

Section Gateway.

Import weather_service.

Variable rt : Runtime.
Variables lat lon : Q.

Lemma bind_raise {A B : Type} (m : result A) (f : A -> result B) (e : pyexn) :
  m = Raise e -> (m ≫= f) = Raise e.
Proof. now intros ->. Qed.

(** The request itself fails: a timeout, a refused connection. *)
Lemma try_request_raises (e : pyexn) :
  requests_get rt OPENMETEO_URL (params lat lon) 5 = Raise e ->
  get_openmeteo_weather_try rt lat lon = Raise e.
Proof. intros E. unfold get_openmeteo_weather_try. now rewrite E. Qed.

(** The provider answers with an error status. *)
Lemma try_status_raises (r : Response) (e : pyexn) :
  requests_get rt OPENMETEO_URL (params lat lon) 5 = Ok r ->
  raise_for_status r = Raise e ->
  get_openmeteo_weather_try rt lat lon = Raise e.
Proof.
  intros E1 E2. unfold get_openmeteo_weather_try. rewrite E1. simpl.
  now rewrite E2.
Qed.

(** The body is not JSON. *)
Lemma try_json_raises (r : Response) (e : pyexn) :
  requests_get rt OPENMETEO_URL (params lat lon) 5 = Ok r ->
  raise_for_status r = Ok () ->
  json r = Raise e ->
  get_openmeteo_weather_try rt lat lon = Raise e.
Proof.
  intros E1 E2 E3. unfold get_openmeteo_weather_try. rewrite E1. simpl.
  rewrite E2. simpl. now rewrite E3.
Qed.

(** The body is JSON of another shape: no ["hourly"] key. *)
Lemma try_shape_raises (r : Response) (items : list (string * pyval)) :
  requests_get rt OPENMETEO_URL (params lat lon) 5 = Ok r ->
  raise_for_status r = Ok () ->
  json r = Ok (PDict items) ->
  assoc "hourly" items = None ->
  get_openmeteo_weather_try rt lat lon = Raise (KeyError (PStr "hourly")).
Proof.
  intros E1 E2 E3 E4. unfold get_openmeteo_weather_try. rewrite E1. simpl.
  rewrite E2. simpl. rewrite E3. simpl. now rewrite E4.
Qed.

(** C4.  Whatever exception the body of the [try] raises, the gateway
    returns the fallback snapshot: temperature 25.0, humidity 60.0, rain
    0.0, a timestamp and the text of the exception as error note.  The
    gateway is a total function: nothing is raised to the caller. *)
Theorem get_openmeteo_weather_fallback (e : pyexn) :
  get_openmeteo_weather_try rt lat lon = Raise e ->
  get_openmeteo_weather rt lat lon =
    {| temperature := PNum 25.0; humidity := PNum 60.0; rain_24h := 0.0;
       timestamp := utcnow_isoformat rt; error := Some (str rt e) |}.
Proof. intros E. unfold get_openmeteo_weather. now rewrite E. Qed.

(** Without an exception the snapshot carries no error note. *)
Lemma get_openmeteo_weather_observed (w : Weather) :
  get_openmeteo_weather_try rt lat lon = Ok w ->
  get_openmeteo_weather rt lat lon = w /\ error w = None.
Proof.
  intros E. unfold get_openmeteo_weather. rewrite E. split; [reflexivity |].
  unfold get_openmeteo_weather_try in E.
  repeat match type of E with
         | (?m ≫= _) = Ok _ => destruct m; simpl in E; [| discriminate E]
         end.
  now inversion E.
Qed.

End Gateway.

Lemma get_openmeteo_weather_fallback_witness :
  let e := Thrown "ReadTimeout" "Read timed out. (read timeout=5)" in
  weather_service.get_openmeteo_weather_try fixtures.timed_out 12.9716 77.5946 = Raise e
  /\ weather_service.get_openmeteo_weather fixtures.timed_out 12.9716 77.5946 =
     {| weather_service.temperature := PNum 25.0;
        weather_service.humidity := PNum 60.0;
        weather_service.rain_24h := 0.0;
        weather_service.timestamp := "2025-06-01T02:00:00";
        weather_service.error := Some "Read timed out. (read timeout=5)" |}.
Proof.
  intros e. split; [reflexivity |].
  exact (get_openmeteo_weather_fallback fixtures.timed_out 12.9716 77.5946 e eq_refl).
Defined.

(** ** The irrigation advisor *)

Section Advisor.

Import weather_service irrigation_service.

Local Open Scope Q_scope.

(** *** The moisture lookup *)

Lemma soil_feel_moisture_cases (soil_feel : string) :
  soil_feel_moisture soil_feel =
    if String.eqb (lower soil_feel) "wet and muddy" then 0.8
    else if String.eqb (lower soil_feel) "slightly damp" then 0.5
    else if String.eqb (lower soil_feel) "dry and crumbly" then 0.2
    else 0.45.
Proof.
  unfold soil_feel_moisture, get, SOIL_FEEL_MAP, dict_of_items. simpl.
  repeat (rewrite lookup_insert; case_decide as E;
          [rewrite <- E; reflexivity
          | apply not_eq_sym, String.eqb_neq in E; rewrite E; clear E]).
  now rewrite lookup_empty.
Qed.

(** *** Depth tiers and rain adjustment *)

Lemma moisture_to_water_mm_values (m : Q) :
  moisture_to_water_mm m = 20.0 \/ moisture_to_water_mm m = 12.0
  \/ moisture_to_water_mm m = 5.0 \/ moisture_to_water_mm m = 0.0.
Proof.
  unfold moisture_to_water_mm.
  destruct (lt m 0.3); [tauto |].
  destruct (lt m 0.5); [tauto |].
  destruct (lt m 0.7); tauto.
Qed.

Lemma moisture_to_water_mm_tiers (m : Q) :
  (m < 0.3 -> moisture_to_water_mm m = 20.0)
  /\ (0.3 <= m < 0.5 -> moisture_to_water_mm m = 12.0)
  /\ (0.5 <= m < 0.7 -> moisture_to_water_mm m = 5.0)
  /\ (0.7 <= m -> moisture_to_water_mm m = 0.0).
Proof.
  unfold moisture_to_water_mm. repeat split.
  - intros H. apply lt_true in H. now rewrite H.
  - intros [H1 H2]. apply lt_false in H1. apply lt_true in H2.
    now rewrite H1, H2.
  - intros [H1 H2].
    assert (0.3 <= m) as H0 by lra.
    apply lt_false in H0, H1. apply lt_true in H2.
    now rewrite H0, H1, H2.
  - intros H.
    assert (0.3 <= m) as H0 by lra.
    assert (0.5 <= m) as H1 by lra.
    apply lt_false in H0, H1, H. now rewrite H0, H1, H.
Qed.

Lemma rain_adjust_heavy (base r : Q) :
  10 < r ->
  rain_adjust base r =
    (0.0, "Heavy rain expected (>10mm), skipping irrigation."%string).
Proof. intros H. unfold rain_adjust. apply gt_true in H. now rewrite H. Qed.

Lemma rain_adjust_moderate (base r : Q) :
  5 < r -> r <= 10 ->
  rain_adjust base r =
    (base * 0.5,
     ("Moderate rain expected (" +:+ format_f1 r
        +:+ "mm), reducing irrigation by 50%.")%string).
Proof.
  intros H1 H2. unfold rain_adjust.
  apply gt_true in H1. apply gt_false in H2. now rewrite H2, H1.
Qed.

Lemma rain_adjust_none (base r : Q) :
  r <= 5 ->
  rain_adjust base r = (base, "No significant rain expected."%string).
Proof.
  intros H. unfold rain_adjust.
  assert (r <= 10) as H' by lra.
  apply gt_false in H, H'. now rewrite H', H.
Qed.

(** Every depth the policy can produce has at most two decimals, so
    [round(base_mm, 2)] returns the same number. *)
Lemma round_depth (m r : Q) :
  round (rain_adjust (moisture_to_water_mm m) r).1 2
  == (rain_adjust (moisture_to_water_mm m) r).1.
Proof.
  unfold rain_adjust.
  destruct (moisture_to_water_mm_values m) as [-> | [-> | [-> | ->]]];
    destruct (gt r 10); [reflexivity | | reflexivity | | reflexivity | | reflexivity |];
    destruct (gt r 5); reflexivity.
Qed.

Lemma gt_proper (x y z : Q) : x == y -> gt x z = gt y z.
Proof.
  intros E. unfold gt, lt. f_equal. now apply Qleb_comp.
Qed.

(** *** The inner recommendation *)

(** What a successful run of the [try] body has computed. *)
Lemma recommend_irrigation_try_Ok (irrigation_model : Classifier)
    (soil_feel : string) (rate r : Q) (advice : Advice) :
  recommend_irrigation_try irrigation_model soil_feel rate r = Ok advice ->
  let m := soil_feel_moisture soil_feel in
  let depth := (rain_adjust (moisture_to_water_mm m) r).1 in
  exists pred preds duration_h,
    predict irrigation_model (features_df m) = Ok (pred :: preds)
    /\ duration depth rate = Ok duration_h
    /\ irrigate advice = truth pred && gt depth 0
    /\ moisture_level advice = m
    /\ water_mm advice = round depth 2
    /\ duration_hours advice = round duration_h 2
    /\ reason_weather advice = (rain_adjust (moisture_to_water_mm m) r).2.
Proof.
  unfold recommend_irrigation_try. intros H. cbv zeta in *.
  destruct (predict_proba _ _) as [pred_proba |]; simpl in H; [| discriminate H].
  destruct (match pred_proba with Arr1 _ => _ | Arr2 _ => _ end) as [proba |];
    simpl in H; [| discriminate H].
  destruct (predict _ _) as [[| pred preds] |]; simpl in H; try discriminate H.
  destruct (rain_adjust _ _) as [depth reason]. simpl in *.
  destruct (duration depth rate) as [duration_h |] eqn:D; simpl in H;
    [| discriminate H].
  injection H as <-. exists pred, preds, duration_h. simpl. auto 10.
Qed.

Lemma recommend_irrigation_Success (rt : Runtime) (irrigation_model : Classifier)
    (soil_feel : string) (rate r : Q) (advice : Advice) :
  recommend_irrigation rt irrigation_model soil_feel rate r = Success advice ->
  recommend_irrigation_try irrigation_model soil_feel rate r = Ok advice.
Proof.
  unfold recommend_irrigation.
  destruct (recommend_irrigation_try _ _ _ _); [| discriminate].
  now intros [= ->].
Qed.

(** The guarded division never raises. *)
Lemma duration_total (base rate : Q) :
  duration base rate = Ok (if gt rate 0 then base / rate else 0.0).
Proof.
  unfold duration, truediv. destruct (gt rate 0) eqn:G; [| reflexivity].
  apply gt_true in G.
  destruct (Qeq_bool rate 0) eqn:Z; [| reflexivity].
  apply Qeq_bool_iff in Z. lra.
Qed.

(** C7 (amended).  The moisture estimate of [recommend_irrigation] is read
    from the lowercased description in a table of three entries, "dry and
    crumbly" 0.2, "slightly damp" 0.5 and "wet and muddy" 0.8; every other
    description gives 0.45, and the lookup raises nothing. *)
Theorem soil_feel_moisture_table (rt : Runtime) (irrigation_model : Classifier)
    (soil_feel : string) (rate r : Q) :
  soil_feel_moisture soil_feel =
    (if String.eqb (lower soil_feel) "dry and crumbly" then 0.2
     else if String.eqb (lower soil_feel) "slightly damp" then 0.5
     else if String.eqb (lower soil_feel) "wet and muddy" then 0.8
     else 0.45)
  /\ match recommend_irrigation rt irrigation_model soil_feel rate r with
     | Success advice => moisture_level advice = soil_feel_moisture soil_feel
     | Failure _ => True
     end
  /\ soil_feel_moisture "WET AND MUDDY" = 0.8
  /\ soil_feel_moisture "Dry and Crumbly" = 0.2
  /\ soil_feel_moisture "soggy" = 0.45.
Proof.
  split; [| split; [| repeat split; vm_compute; reflexivity]].
  - rewrite soil_feel_moisture_cases.
    destruct (String.eqb_spec (lower soil_feel) "wet and muddy") as [-> |];
      [reflexivity |].
    destruct (String.eqb_spec (lower soil_feel) "slightly damp") as [-> |];
      [reflexivity |].
    reflexivity.
  - destruct (recommend_irrigation _ _ _ _ _) as [advice |] eqn:E; [| exact I].
    apply recommend_irrigation_Success, recommend_irrigation_try_Ok in E.
    destruct E as (? & ? & ? & _ & _ & _ & E & _). exact E.
Qed.

(** *** Depth, irrigation flag, duration *)

(** C2.  The returned [water_mm] is the tier of the moisture (below 0.3:
    20 mm, from 0.3 below 0.5: 12 mm, from 0.5 below 0.7: 5 mm, from 0.7:
    0 mm) after the rain adjustment: above 10 mm of forecast rain it is 0
    with the heavy-rain reason (this test comes first), above 5 and up to
    10 mm it is half the tier with the moderate-rain reason, otherwise it
    is the tier with "No significant rain expected.". *)
Theorem recommend_irrigation_water_mm (rt : Runtime) (irrigation_model : Classifier)
    (soil_feel : string) (rate r : Q) (advice : Advice) :
  recommend_irrigation rt irrigation_model soil_feel rate r = Success advice ->
  let base := moisture_to_water_mm (moisture_level advice) in
  (forall m : Q,
      (m < 0.3 -> moisture_to_water_mm m == 20)
      /\ (0.3 <= m < 0.5 -> moisture_to_water_mm m == 12)
      /\ (0.5 <= m < 0.7 -> moisture_to_water_mm m == 5)
      /\ (0.7 <= m -> moisture_to_water_mm m == 0))
  /\ (10 < r ->
      water_mm advice == 0
      /\ reason_weather advice
         = "Heavy rain expected (>10mm), skipping irrigation."%string)
  /\ (5 < r <= 10 ->
      water_mm advice == base / 2
      /\ reason_weather advice
         = ("Moderate rain expected (" +:+ format_f1 r
              +:+ "mm), reducing irrigation by 50%.")%string)
  /\ (r <= 5 ->
      water_mm advice == base
      /\ reason_weather advice = "No significant rain expected."%string).
Proof.
  intros H base. subst base.
  apply recommend_irrigation_Success, recommend_irrigation_try_Ok in H.
  destruct H as (pred & preds & d & _ & _ & _ & Hm & Hw & _ & Hr).
  rewrite Hm, Hw, Hr, round_depth. clear.
  split; [| split; [| split]].
  - intros m. destruct (moisture_to_water_mm_tiers m) as (T1 & T2 & T3 & T4).
    repeat split; intros H;
      [rewrite (T1 H) | rewrite (T2 H) | rewrite (T3 H) | rewrite (T4 H)];
      reflexivity.
  - intros H. rewrite (rain_adjust_heavy _ _ H). simpl. split; reflexivity.
  - intros [H1 H2]. rewrite (rain_adjust_moderate _ _ H1 H2). simpl.
    split; [| reflexivity].
    unfold Qdiv. apply Qmult_comp; reflexivity.
  - intros H. rewrite (rain_adjust_none _ _ H). simpl. split; reflexivity.
Qed.

(** C1.  In a successful recommendation [irrigate] is the conjunction of
    the truth value of the classifier's prediction and of "the
    rain-adjusted depth is greater than 0"; [water_mm] is that depth, and
    when it is 0 [irrigate] is false whatever the classifier predicted. *)
Theorem recommend_irrigation_irrigate (rt : Runtime) (irrigation_model : Classifier)
    (soil_feel : string) (rate r : Q) (advice : Advice) :
  recommend_irrigation rt irrigation_model soil_feel rate r = Success advice ->
  let m := soil_feel_moisture soil_feel in
  let depth := (rain_adjust (moisture_to_water_mm m) r).1 in
  exists pred preds,
    predict irrigation_model (features_df m) = Ok (pred :: preds)
    /\ water_mm advice == depth
    /\ irrigate advice = truth pred && gt depth 0
    /\ irrigate advice = truth pred && gt (water_mm advice) 0
    /\ (water_mm advice == 0 -> irrigate advice = false).
Proof.
  intros H m depth.
  apply recommend_irrigation_Success, recommend_irrigation_try_Ok in H.
  destruct H as (pred & preds & d & Hp & _ & Hi & _ & Hw & _).
  fold m depth in Hp, Hi, Hw.
  assert (water_mm advice == depth) as W
    by (rewrite Hw; apply round_depth).
  exists pred, preds. repeat split; auto.
  - now rewrite (gt_proper _ _ 0 W).
  - intros Z. rewrite Hi.
    assert (gt depth 0 = false) as -> by (apply gt_false; lra).
    apply andb_false_r.
Qed.

(** *** The recommendation with weather *)

Lemma appwrite_service_unbound :
  load_global module_globals "appwrite_service"
  = Raise (NameError "appwrite_service").
Proof. vm_compute. reflexivity. Qed.

(** The outer function in terms of the inner one: the forecast is handed
    over as the gateway gave it; an inner failure is returned with the
    weather attached; after an inner success the name [appwrite_service]
    is looked up, which raises. *)
Lemma recommend_irrigation_with_weather_cases (rt : Runtime)
    (databases : Databases) (irrigation_model : Classifier)
    (soil_feel : string) (rate : Q) (state_name district_name : string) :
  recommend_irrigation_with_weather rt databases irrigation_model soil_feel
    rate state_name district_name =
  match recommend_irrigation rt irrigation_model soil_feel rate
          (forecast_rain rt state_name district_name) with
  | Success _ =>
      Failed ("Weather-based irrigation recommendation failed: "
                +:+ str rt (NameError "appwrite_service"))
  | Failure e =>
      let '(lat, lon) := map_location_to_coords state_name district_name in
      Returned {| recommendation := Failure e;
                  weather := get_openmeteo_weather rt lat lon;
                  state := state_name; district := district_name;
                  identity := None |}
  end.
Proof.
  unfold recommend_irrigation_with_weather,
    recommend_irrigation_with_weather_try, forecast_rain.
  destruct (map_location_to_coords state_name district_name) as [lat lon].
  cbv zeta. simpl recommendation.
  destruct (recommend_irrigation _ _ _ _ _) as [advice | e]; cbn [success].
  - now rewrite appwrite_service_unbound.
  - reflexivity.
Qed.

(** The store is written through [log_irrigation] only, which returns
    whether or not the write succeeds. *)
Lemma log_irrigation_absorbs (databases : Databases) (user_id farm_id : string)
    (log_data : Logged) :
  log_irrigation databases user_id farm_id log_data =
    {| recommendation := recommendation log_data; weather := weather log_data;
       state := state log_data; district := district log_data;
       identity := Some (user_id, farm_id) |}.
Proof. unfold log_irrigation. now destruct (create_document _ _ _ _ _). Qed.

(** C3, at a failing input.  The provider answers, the classifier predicts
    and the inner recommendation for "dry and crumbly" at 4 mm/h succeeds;
    [recommend_irrigation_with_weather] nevertheless returns its failure
    dict, whatever the document store does: the success is lost on the
    lookup of the unbound name [appwrite_service]. *)
Theorem recommend_irrigation_with_weather_loses_success (databases : Databases) :
  let rt := fixtures.online [PNum 0; PNum 0.2] in
  success (recommend_irrigation rt fixtures.eager_model "dry and crumbly" 4
             (forecast_rain rt "Karnataka" "Bangalore")) = true
  /\ recommend_irrigation_with_weather rt databases fixtures.eager_model
       "dry and crumbly" 4 "Karnataka" "Bangalore"
     = Failed "Weather-based irrigation recommendation failed: name 'appwrite_service' is not defined".
Proof.
  intros rt. split; [vm_compute; reflexivity |].
  rewrite recommend_irrigation_with_weather_cases.
  destruct (recommend_irrigation _ _ _ _ _) eqn:E; [reflexivity |].
  vm_compute in E. discriminate E.
Qed.

(** C8 (amended).  The gateway's [rain_24h] is clamped at 0 where
    [recommend_crops] consumes it: the [Rainfall_mm] feature is
    [max(rain_24h, 0.0)], which is not negative.
    [recommend_irrigation_with_weather] hands [rain_24h] to the
    rain-adjustment policy as it is; for the policy a negative amount is
    the same as none, so the recommendation is the one the clamped amount
    would give. *)
Theorem rain_24h_consumption (rt : Runtime) (databases : Databases)
    (irrigation_model : Classifier) (soil_feel : string) (rate : Q)
    (soil_type soil_quality state_name district_name : string) :
  let rain := forecast_rain rt state_name district_name in
  (exists npk ph_val w df_sample,
      crop_service.features rt soil_type soil_quality state_name district_name
      = Ok (npk, ph_val, w, df_sample)
      /\ rain_24h w = rain
      /\ assoc "Rainfall_mm" df_sample = Some (PNum (max rain 0.0))
      /\ 0 <= max rain 0.0)
  /\ recommend_irrigation_with_weather rt databases irrigation_model soil_feel
       rate state_name district_name
     = match recommend_irrigation rt irrigation_model soil_feel rate rain with
       | Success _ =>
           Failed ("Weather-based irrigation recommendation failed: "
                     +:+ str rt (NameError "appwrite_service"))
       | Failure e =>
           let '(lat, lon) := map_location_to_coords state_name district_name in
           Returned {| recommendation := Failure e;
                       weather := get_openmeteo_weather rt lat lon;
                       state := state_name; district := district_name;
                       identity := None |}
       end
  /\ recommend_irrigation rt irrigation_model soil_feel rate rain
     = recommend_irrigation rt irrigation_model soil_feel rate (max rain 0.0).
Proof.
  intros rain. split; [| split].
  - unfold crop_service.features, forecast_rain in *.
    destruct (map_location_to_coords state_name district_name) as [lat lon].
    subst rain. simpl. eexists _, _, _, _. split; [reflexivity |].
    split; [reflexivity |]. split; [reflexivity |].
    apply Qle_trans with 0.0; [discriminate | apply max_lower_bound].
  - apply recommend_irrigation_with_weather_cases.
  - unfold max. destruct (gt 0.0 rain) eqn:G; [| reflexivity].
    apply gt_true in G.
    unfold recommend_irrigation, recommend_irrigation_try.
    rewrite !rain_adjust_none by lra. reflexivity.
Qed.

End Advisor.

(** ** The irrigation advisor on binary64: the duration *)

Section AdvisorBinary64.

Import binary64.

Local Open Scope float_scope.

(** *** Signs and comparisons of doubles *)

Lemma Prim2SF_zero : Prim2SF 0 = S754_zero false.
Proof. reflexivity. Qed.

Lemma positive_not_zero (x : float) : (0 <? x) = true -> (x =? 0) = false.
Proof.
  rewrite FloatAxioms.ltb_spec, FloatAxioms.eqb_spec, Prim2SF_zero.
  unfold SFltb, SFeqb.
  destruct (Prim2SF x) as [[] | [] | | [] m e]; simpl; congruence.
Qed.

Lemma not_positive (x : float) : (x <=? 0) = true -> (0 <? x) = false.
Proof.
  rewrite FloatAxioms.ltb_spec, FloatAxioms.leb_spec, Prim2SF_zero.
  unfold SFltb, SFleb.
  destruct (Prim2SF x) as [[] | [] | | [] m e]; simpl; congruence.
Qed.

(** The guarded division never raises. *)
Lemma duration_binary64_total (base rate : float) :
  duration base rate = Ok (if 0 <? rate then base / rate else 0).
Proof.
  unfold duration, truediv. destruct (0 <? rate) eqn:G; [| reflexivity].
  now rewrite (positive_not_zero _ G).
Qed.

(** The depths the policy can produce: a tier, or half a tier. *)
Lemma depth_values (m r : float) :
  In (rain_adjust (moisture_to_water_mm m) r).1 [0; 2.5; 5; 6; 10; 12; 20].
Proof.
  unfold rain_adjust, moisture_to_water_mm.
  destruct (10 <? r); [| destruct (5 <? r)];
    repeat match goal with
           | |- context [if ?c then _ else _] => destruct c
           end;
    vm_compute; auto 10.
Qed.

Lemma round2_depth (m r : float) :
  round2 (rain_adjust (moisture_to_water_mm m) r).1
  = (rain_adjust (moisture_to_water_mm m) r).1.
Proof.
  pose proof (depth_values m r) as H. simpl in H.
  destruct H as [<- | [<- | [<- | [<- | [<- | [<- | [<- | []]]]]]]];
    vm_compute; reflexivity.
Qed.

(** *** The inner recommendation *)

(** What a successful run of the [try] body has computed. *)
Lemma recommend_irrigation_binary64_Ok (irrigation_model : Classifier)
    (soil_feel : string) (rate r : float) (advice : Advice) :
  recommend_irrigation_try irrigation_model soil_feel rate r = Ok advice ->
  let m := soil_feel_moisture soil_feel in
  let depth := (rain_adjust (moisture_to_water_mm m) r).1 in
  water_mm advice = depth
  /\ duration_hours advice = round2 (if 0 <? rate then depth / rate else 0).
Proof.
  unfold recommend_irrigation_try. intros H. cbv zeta in *.
  destruct (predict_proba _ _) as [pred_proba |]; simpl in H; [| discriminate H].
  destruct (match pred_proba with Arr1 _ => _ | Arr2 _ => _ end) as [proba |];
    simpl in H; [| discriminate H].
  destruct (predict _ _) as [[| pred preds] |]; simpl in H; try discriminate H.
  pose proof (round2_depth (soil_feel_moisture soil_feel) r) as R.
  destruct (rain_adjust _ _) as [depth reason]. simpl in *.
  rewrite duration_binary64_total in H. simpl in H.
  injection H as <-. simpl. auto.
Qed.

Lemma recommend_irrigation_binary64_Success (rt : Runtime)
    (irrigation_model : Classifier) (soil_feel : string) (rate r : float)
    (advice : Advice) :
  recommend_irrigation rt irrigation_model soil_feel rate r = Success advice ->
  recommend_irrigation_try irrigation_model soil_feel rate r = Ok advice.
Proof.
  unfold recommend_irrigation.
  destruct (recommend_irrigation_try _ _ _ _); [| discriminate].
  now intros [= ->].
Qed.

(** C9 (amended).  In a successful recommendation [duration_hours] is the
    quotient of the depth by the application rate, a division of doubles,
    rounded by [round(., 2)], when the rate is greater than 0, and 0.0 when
    the rate is 0, negative or not a number.  The division is never reached
    with a zero divisor: the duration step returns a number for every depth
    and rate.  A depth of 12 mm at 4 mm/h gives 3.0 h, and at rate 0 gives
    0.0 h. *)
Theorem recommend_irrigation_duration (rt : Runtime) (irrigation_model : Classifier)
    (soil_feel : string) (rate r : float) (advice : Advice) :
  recommend_irrigation rt irrigation_model soil_feel rate r = Success advice ->
  ((0 <? rate) = true ->
   duration_hours advice = round2 (water_mm advice / rate))
  /\ ((rate <=? 0) = true -> duration_hours advice = 0)
  /\ ((0 <? rate) = false -> duration_hours advice = 0)
  /\ (forall base q : float, exists d : float, duration base q = Ok d)
  /\ (d ← duration 12 4; mret (round2 d)) = Ok 3
  /\ (d ← duration 12 0; mret (round2 d)) = Ok 0.
Proof.
  intros H.
  apply recommend_irrigation_binary64_Success, recommend_irrigation_binary64_Ok
    in H.
  destruct H as [Hw Hh]. rewrite Hw, Hh.
  split; [| split; [| split; [| split; [| split; vm_compute; reflexivity]]]].
  - now intros ->.
  - intros P. now rewrite (not_positive _ P).
  - now intros ->.
  - intros base q. rewrite duration_binary64_total. eauto.
Qed.

End AdvisorBinary64.

(** *** Concrete runs *)

Lemma recommend_irrigation_water_mm_witness :
  let advice :=
    {| irrigation_service.irrigate := true;
       irrigation_service.model_probability := 0.7;
       irrigation_service.moisture_level := 0.2;
       irrigation_service.water_mm := Py.round (20.0 * 0.5) 2;
       irrigation_service.duration_hours := Py.round (20.0 * 0.5 / 4) 2;
       irrigation_service.reason_weather :=
         "Moderate rain expected (7.0mm), reducing irrigation by 50%.";
       irrigation_service.application_rate_mm_per_h := 4;
       irrigation_service.soil_feel := "Dry and crumbly" |} in
  irrigation_service.recommend_irrigation fixtures.timed_out fixtures.eager_model
    "Dry and crumbly" 4 7 = Success advice
  /\ (irrigation_service.water_mm advice == 10)%Q.
Proof.
  intros advice.
  assert (irrigation_service.recommend_irrigation fixtures.timed_out
            fixtures.eager_model "Dry and crumbly" 4 7 = Success advice) as E
    by reflexivity.
  split; [exact E |].
  destruct (recommend_irrigation_water_mm _ _ _ _ _ _ E) as (_ & _ & M & _).
  destruct M as [M _]; [split; [reflexivity | discriminate] |].
  rewrite M. reflexivity.
Defined.

Lemma recommend_irrigation_irrigate_witness :
  exists advice,
    irrigation_service.recommend_irrigation fixtures.timed_out fixtures.eager_model
      "dry and crumbly" 4 15 = Success advice
    /\ irrigation_service.irrigate advice = false.
Proof.
  eexists. split; [reflexivity |].
  destruct (recommend_irrigation_irrigate fixtures.timed_out fixtures.eager_model
              "dry and crumbly" 4 15 _ eq_refl) as (pred & preds & _ & _ & _ & _ & Z).
  apply Z. reflexivity.
Defined.

Lemma recommend_irrigation_duration_witness :
  exists advice,
    binary64.recommend_irrigation fixtures.timed_out binary64.eager_model
      "slightly damp" 200 0 = Success advice
    /\ binary64.duration_hours advice = 0.03%float.
Proof.
  destruct (binary64.recommend_irrigation fixtures.timed_out
              binary64.eager_model "slightly damp" 200 0) as [advice | e] eqn:E;
    [| vm_compute in E; discriminate E].
  exists advice. split; [reflexivity |].
  destruct (recommend_irrigation_duration _ _ _ _ _ _ E) as (D & _).
  rewrite (D eq_refl). vm_compute in E. injection E as <-. vm_compute.
  reflexivity.
Defined.

(** C7, as stated, at "dry": the description is not a key of the table,
    its estimate is the default 0.45 and not 0.2. *)
Lemma soil_feel_moisture_dry :
  irrigation_service.soil_feel_moisture "dry" = 0.45%Q
  /\ ~ (irrigation_service.soil_feel_moisture "dry" == 0.2)%Q.
Proof. split; [reflexivity |]. vm_compute. discriminate. Qed.

(** C9, as stated, at 20 mm and 3 mm/h: the returned duration is 6.67 h,
    which is not the quotient 20.0 / 3.0. *)
Lemma duration_hours_rounded :
  match binary64.recommend_irrigation fixtures.timed_out binary64.eager_model
          "dry and crumbly" 3 0 with
  | Success advice =>
      binary64.water_mm advice = 20%float
      /\ binary64.duration_hours advice = 6.67%float
      /\ (binary64.duration_hours advice =? binary64.water_mm advice / 3)%float
         = false
  | Failure _ => False
  end.
Proof. vm_compute. repeat split. Qed.

(** C8, as stated, at a provider series that sums to -3: that amount
    reaches the rain-adjustment policy, not its clamp. *)
Lemma forecast_rain_negative :
  let rt := fixtures.online [PNum (-1.5); PNum (-1.5)] in
  (irrigation_service.forecast_rain rt "Karnataka" "Bangalore" == -3)%Q
  /\ ~ (0 <= irrigation_service.forecast_rain rt "Karnataka" "Bangalore")%Q.
Proof. split; vm_compute; [reflexivity | intros H; apply H; reflexivity]. Qed.

(** ** The crop recommender *)

Section Ranking.

Import crop_service.

Local Open Scope Q_scope.

Lemma insert_desc_perm (x : CropProb) (l : list CropProb) :
  Permutation (insert_desc x l) (x :: l).
Proof.
  induction l as [| y l IH]; simpl; [reflexivity |].
  destruct (gt (probability y) (probability x)); [| reflexivity].
  rewrite IH. apply perm_swap.
Qed.

Lemma sort_desc_perm (l : list CropProb) : Permutation (sort_desc l) l.
Proof.
  induction l as [| x l IH]; simpl; [reflexivity |].
  rewrite insert_desc_perm. now apply perm_skip.
Qed.

Lemma insert_desc_sorted (x : CropProb) (l : list CropProb) :
  StronglySorted not_below l -> StronglySorted not_below (insert_desc x l).
Proof.
  induction 1 as [| y l S IH F]; simpl.
  - repeat constructor.
  - destruct (gt (probability y) (probability x)) eqn:G.
    + apply gt_true in G. constructor; [exact IH |].
      apply List.Forall_forall. intros z Hz.
      apply (Permutation_in _ (insert_desc_perm x l)) in Hz.
      destruct Hz as [<- | Hz].
      * unfold not_below. lra.
      * rewrite List.Forall_forall in F. now apply F.
    + apply gt_false in G. constructor; [now constructor |].
      constructor; [exact G |].
      rewrite List.Forall_forall in F |- *. intros z Hz.
      specialize (F z Hz). unfold not_below in *. lra.
Qed.

Lemma sort_desc_sorted (l : list CropProb) : StronglySorted not_below (sort_desc l).
Proof.
  induction l as [| x l IH]; simpl; [constructor |].
  now apply insert_desc_sorted.
Qed.

(** Insertion puts an entry in front of the entries of its own class. *)
Lemma insert_desc_stable (p : Q) (x : CropProb) (l : list CropProb) :
  List.filter (has_probability p) (insert_desc x l)
  = List.filter (has_probability p) (x :: l).
Proof.
  induction l as [| y l IH]; [reflexivity |].
  cbn [insert_desc].
  destruct (gt (probability y) (probability x)) eqn:G; [| reflexivity].
  cbn [List.filter] in *. rewrite IH.
  destruct (has_probability p x) eqn:Px, (has_probability p y) eqn:Py;
    try reflexivity.
  unfold has_probability in Px, Py.
  apply Qeq_bool_iff in Px, Py. apply gt_true in G. lra.
Qed.

Lemma sort_desc_stable (p : Q) (l : list CropProb) :
  List.filter (has_probability p) (sort_desc l)
  = List.filter (has_probability p) l.
Proof.
  induction l as [| x l IH]; [reflexivity |].
  cbn [sort_desc foldr]. fold (sort_desc l).
  rewrite insert_desc_stable. cbn [List.filter]. now rewrite IH.
Qed.

End Ranking.

Section Recommender.

Import weather_service crop_service.

Local Open Scope Q_scope.

Variable rt : Runtime.
Variable crop_model : Classifier.
Variables soil_type soil_quality state_name district_name : string.

Lemma SOIL_QUALITY_MAP_Medium :
  subscript SOIL_QUALITY_MAP "Medium" = Ok {| N := 50; P := 25; K := 25 |}.
Proof. vm_compute. reflexivity. Qed.

(** The soil lookups and the weather fetch raise nothing; the row for the
    classifier is built from their values. *)
Lemma features_Ok :
  let npk := get SOIL_QUALITY_MAP soil_quality {| N := 50; P := 25; K := 25 |} in
  let ph_val := get SOIL_TYPE_MAP soil_type 7.0 in
  let w := get_openmeteo_weather rt (map_location_to_coords state_name district_name).1
             (map_location_to_coords state_name district_name).2 in
  features rt soil_type soil_quality state_name district_name
  = Ok (npk, ph_val, w,
        sample npk (temperature w) (humidity w) ph_val
          (max (rain_24h w) 0.0) state_name).
Proof.
  unfold features. rewrite SOIL_QUALITY_MAP_Medium.
  destruct (map_location_to_coords state_name district_name) as [lat lon].
  reflexivity.
Qed.

(** What a successful run of the [try] body has computed from the
    features. *)
Lemma recommend_crops_Success (advice : Advice) (npk : NPK) (ph_val : Q)
    (w : Weather) (df_sample : DataFrame) :
  features rt soil_type soil_quality state_name district_name
  = Ok (npk, ph_val, w, df_sample) ->
  recommend_crops rt crop_model soil_type soil_quality state_name district_name
  = Success advice ->
  exists proba crop_probs,
    predict_proba crop_model df_sample = Ok proba
    /\ rank (classes_ crop_model) proba = Ok crop_probs
    /\ recommended_crops advice = take 5 crop_probs
    /\ soil_params advice
       = {| crop_service.soil_type := soil_type;
            crop_service.soil_quality := soil_quality;
            N_req_kg_per_ha := N npk; P_req_kg_per_ha := P npk;
            K_req_kg_per_ha := K npk; pH := ph_val |}.
Proof.
  intros F. unfold recommend_crops, recommend_crops_try. rewrite F. simpl.
  destruct (predict_proba crop_model df_sample) as [proba |] eqn:E1;
    simpl; [| discriminate].
  destruct (rank (classes_ crop_model) proba) as [crop_probs |] eqn:E2;
    simpl; [| discriminate].
  intros [= <-]. exists proba, crop_probs. simpl. auto.
Qed.

Lemma rank_Ok (classes : list string) (proba : ndarray) (crop_probs : list CropProb) :
  rank classes proba = Ok crop_probs ->
  exists row rows,
    proba = Arr2 (row :: rows)
    /\ crop_probs
       = sort_desc (zip_with (fun cls p => {| crop := cls; probability := p |})
                      classes row).
Proof.
  unfold rank. destruct proba as [[| ? ?] | [| row rows]]; simpl; try discriminate.
  intros [= <-]. eauto.
Qed.

(** C6.  A successful [recommend_crops] pairs the labels of the classifier
    with the probabilities of the first row it returned, orders the pairs
    by descending probability (a permutation of the pairs in which no
    entry is followed by a more probable one, entries of equal probability
    in their original order) and returns the first five.  Probabilities
    0.1, 0.6, 0.3 for Wheat, Rice, Maize rank as Rice, Maize, Wheat. *)
Theorem recommend_crops_ranking (advice : Advice) :
  recommend_crops rt crop_model soil_type soil_quality state_name district_name
  = Success advice ->
  (exists df_sample row rows ranked,
      let crop_probs :=
        zip_with (fun cls p => {| crop := cls; probability := p |})
          (classes_ crop_model) row in
      predict_proba crop_model df_sample = Ok (Arr2 (row :: rows))
      /\ recommended_crops advice = take 5 ranked
      /\ Permutation ranked crop_probs
      /\ StronglySorted not_below ranked
      /\ forall p : Q,
          List.filter (has_probability p) ranked
          = List.filter (has_probability p) crop_probs)
  /\ rank ["Wheat"; "Rice"; "Maize"] (Arr2 [[0.1; 0.6; 0.3]])
     = Ok [ {| crop := "Rice"; probability := 0.6 |};
            {| crop := "Maize"; probability := 0.3 |};
            {| crop := "Wheat"; probability := 0.1 |} ].
Proof.
  intros H. split; [| vm_compute; reflexivity].
  pose proof features_Ok as F. cbv zeta in F.
  destruct (recommend_crops_Success _ _ _ _ _ F H)
    as (proba & crop_probs & Hp & Hr & Ht & _).
  apply rank_Ok in Hr. destruct Hr as (row & rows & -> & ->).
  eexists _, row, rows. eexists. cbv zeta.
  split; [exact Hp |]. split; [exact Ht |].
  split; [apply sort_desc_perm |].
  split; [apply sort_desc_sorted |].
  intros p. apply sort_desc_stable.
Qed.

(** C10.  The soil lookups of [recommend_crops] compare the strings as
    they are.  A [soil_quality] other than "Poor", "Medium", "Rich" gets
    the Medium triple N 50, P 25, K 25, and a [soil_type] other than the
    eight keys of [SOIL_TYPE_MAP] gets pH 7.0, in the reported
    [soil_params] and in the row given to the classifier; the lookups
    raise nothing.  So do "rich" and "clay" in lowercase. *)
Theorem recommend_crops_soil_defaults (advice : Advice) :
  recommend_crops rt crop_model soil_type soil_quality state_name district_name
  = Success advice ->
  (exists npk ph_val w df_sample,
      features rt soil_type soil_quality state_name district_name
      = Ok (npk, ph_val, w, df_sample)
      /\ N_req_kg_per_ha (soil_params advice) = N npk
      /\ P_req_kg_per_ha (soil_params advice) = P npk
      /\ K_req_kg_per_ha (soil_params advice) = K npk
      /\ pH (soil_params advice) = ph_val
      /\ assoc "N_req_kg_per_ha" df_sample = Some (PNum (inject_Z (N npk)))
      /\ assoc "P_req_kg_per_ha" df_sample = Some (PNum (inject_Z (P npk)))
      /\ assoc "K_req_kg_per_ha" df_sample = Some (PNum (inject_Z (K npk)))
      /\ assoc "pH" df_sample = Some (PNum ph_val))
  /\ (soil_quality ∉ ["Poor"; "Medium"; "Rich"]%string ->
      N_req_kg_per_ha (soil_params advice) = 50%Z
      /\ P_req_kg_per_ha (soil_params advice) = 25%Z
      /\ K_req_kg_per_ha (soil_params advice) = 25%Z)
  /\ (soil_type ∉ ["Sandy"; "Loam"; "Clay"; "Red"; "Black"; "Laterite";
                   "Alluvial"; "Mixed"]%string ->
      pH (soil_params advice) = 7.0)
  /\ get SOIL_QUALITY_MAP "rich" {| N := 50; P := 25; K := 25 |}
     = {| N := 50; P := 25; K := 25 |}
  /\ get SOIL_QUALITY_MAP "Rich" {| N := 50; P := 25; K := 25 |}
     = {| N := 90; P := 40; K := 40 |}
  /\ get SOIL_TYPE_MAP "clay" 7.0 = 7.0
  /\ get SOIL_TYPE_MAP "Clay" 7.0 = 7.5
  /\ size SOIL_TYPE_MAP = 8%nat.
Proof.
  intros H. pose proof features_Ok as F. cbv zeta in F.
  destruct (recommend_crops_Success _ _ _ _ _ F H) as (_ & _ & _ & _ & _ & Hs).
  rewrite Hs. cbn [N_req_kg_per_ha P_req_kg_per_ha K_req_kg_per_ha pH].
  split; [| split; [| split; [| repeat split; vm_compute; reflexivity]]].
  - eexists _, _, _, _. split; [exact F |].
    unfold sample. cbn [assoc String.eqb Ascii.eqb Bool.eqb].
    repeat split; reflexivity.
  - intros Hq.
    assert (SOIL_QUALITY_MAP !! soil_quality = None) as E
      by (apply dict_of_items_lookup_None; exact Hq).
    rewrite (get_missing _ _ _ E). repeat split; reflexivity.
  - intros Ht.
    assert (SOIL_TYPE_MAP !! soil_type = None) as E
      by (apply dict_of_items_lookup_None; exact Ht).
    now rewrite (get_missing _ _ _ E).
Qed.

End Recommender.

Lemma recommend_crops_ranking_witness :
  let rt := fixtures.online [PNum 0.4; PNum 1.1] in
  exists advice,
    crop_service.recommend_crops rt fixtures.three_crops "Loam" "Medium"
      "Chhattisgarh" "Durg" = Success advice
    /\ map crop_service.crop (crop_service.recommended_crops advice)
       = ["Rice"; "Maize"; "Wheat"].
Proof.
  intros rt.
  destruct (crop_service.recommend_crops rt fixtures.three_crops "Loam" "Medium"
              "Chhattisgarh" "Durg") as [advice | e] eqn:E;
    [| vm_compute in E; discriminate E].
  exists advice. split; [reflexivity |].
  destruct (recommend_crops_ranking _ _ _ _ _ _ _ E) as [_ R].
  vm_compute in E. injection E as <-. reflexivity.
Defined.

Lemma recommend_crops_soil_defaults_witness :
  let rt := fixtures.online [PNum 0.4; PNum 1.1] in
  exists advice,
    crop_service.recommend_crops rt fixtures.three_crops "clay" "rich"
      "Chhattisgarh" "Durg" = Success advice
    /\ crop_service.N_req_kg_per_ha (crop_service.soil_params advice) = 50%Z
    /\ crop_service.pH (crop_service.soil_params advice) = 7.0%Q.
Proof.
  intros rt.
  destruct (crop_service.recommend_crops rt fixtures.three_crops "clay" "rich"
              "Chhattisgarh" "Durg") as [advice | e] eqn:E;
    [| vm_compute in E; discriminate E].
  exists advice. split; [reflexivity |].
  destruct (recommend_crops_soil_defaults _ _ _ _ _ _ _ E) as (_ & Q & T & _).
  split.
  - apply Q. refine (bool_decide_unpack _ _). vm_compute. exact I.
  - apply T. refine (bool_decide_unpack _ _). vm_compute. exact I.
Defined.

(** * Further properties *)

(** ** The weather gateway: what it reads, when it falls back *)

Section GatewayReadings.

Import weather_service readings.

Local Open Scope Q_scope.

Variable rt : Runtime.
Variables lat lon : Q.

Lemma sum_from_not_addable (acc : Q) (xs : list pyval) :
  Exists (fun v => addable v = false) xs ->
  sum_from acc xs = Raise TypeError.
Proof.
  intros E. revert acc. induction E as [v xs Hv | v xs _ IH]; intros acc.
  - destruct v; try discriminate Hv; reflexivity.
  - simpl. destruct v; try reflexivity; apply IH.
Qed.

Lemma sum_from_not_negative (acc q : Q) (xs : list pyval) :
  Forall not_negative xs -> 0 <= acc ->
  sum_from acc xs = Ok q -> 0 <= q.
Proof.
  intros F. revert acc. induction F as [| v xs Hv _ IH]; intros acc A; simpl.
  - now intros [= <-].
  - destruct v; simpl; try discriminate.
    + apply IH. destruct b; lra.
    + apply IH. simpl in Hv. lra.
Qed.

Lemma sum_from_addable (acc : Q) (xs : list pyval) :
  Forall (fun v => addable v = true) xs -> exists q, sum_from acc xs = Ok q.
Proof.
  intros F. revert acc. induction F as [| v xs Hv _ IH]; intros acc.
  - exists acc. reflexivity.
  - destruct v; try discriminate Hv; simpl; apply IH.
Qed.

(** X1.  When the provider answers with the four hourly series and every
    entry of the precipitation series can be added up (numbers, bools), the
    snapshot carries the last temperature and the last humidity as they
    were sent, the time of the call, and no error note. *)
Theorem get_openmeteo_weather_reads_series (r : Response)
    (data h hours t hm : pyval) (temps hums prec : list pyval) :
  requests_get rt OPENMETEO_URL (params lat lon) 5 = Ok r ->
  raise_for_status r = Ok () ->
  json r = Ok data ->
  getitem data "hourly" = Ok h ->
  getitem h "time" = Ok hours ->
  getitem h "temperature_2m" = Ok (PList temps) ->
  last temps = Some t ->
  getitem h "relative_humidity_2m" = Ok (PList hums) ->
  last hums = Some hm ->
  getitem h "precipitation" = Ok (PList prec) ->
  Forall (fun v => addable v = true) prec ->
  let w := get_openmeteo_weather rt lat lon in
  temperature w = t /\ humidity w = hm
  /\ timestamp w = utcnow_isoformat rt /\ error w = None.
Proof.
  intros E1 E2 E3 E4 E5 E6 E7 E8 E9 E10 A.
  unfold get_openmeteo_weather, get_openmeteo_weather_try.
  rewrite E1. cbn [mbind result_bind]. rewrite E2. cbn [mbind result_bind].
  rewrite E3. cbn [mbind result_bind]. rewrite E4. cbn [mbind result_bind].
  rewrite E5, E6, E8, E10. cbn [mbind result_bind getitem_last].
  rewrite E7, E9. cbn [mbind result_bind sum].
  destruct (sum_from_addable 0 prec A) as [q ->]. simpl. auto.
Qed.

(** The [try] body up to the precipitation: when the body holds a
    precipitation series, the outcome is that of [sum] on it, unless an
    earlier step raised. *)
Lemma try_reaches_sum (r : Response) (data h prec : pyval) :
  requests_get rt OPENMETEO_URL (params lat lon) 5 = Ok r ->
  json r = Ok data ->
  getitem data "hourly" = Ok h ->
  getitem h "precipitation" = Ok prec ->
  (exists e, get_openmeteo_weather_try rt lat lon = Raise e)
  \/ (exists t hm q,
        sum prec = Ok q
        /\ get_openmeteo_weather_try rt lat lon =
           Ok {| temperature := t; humidity := hm; rain_24h := q;
                 timestamp := utcnow_isoformat rt; error := None |}).
Proof.
  intros E1 E3 E4 E10. unfold get_openmeteo_weather_try.
  rewrite E1. cbn [mbind result_bind].
  destruct (raise_for_status r); cbn [mbind result_bind]; [| eauto].
  rewrite E3. cbn [mbind result_bind]. rewrite E4. cbn [mbind result_bind].
  destruct (getitem h "time"); cbn [mbind result_bind]; [| eauto].
  destruct (getitem h "temperature_2m") as [temps |]; cbn [mbind result_bind];
    [| eauto].
  destruct (getitem h "relative_humidity_2m") as [hums |];
    cbn [mbind result_bind]; [| eauto].
  rewrite E10. cbn [mbind result_bind].
  destruct (getitem_last temps) as [t |]; cbn [mbind result_bind]; [| eauto].
  destruct (getitem_last hums) as [hm |]; cbn [mbind result_bind]; [| eauto].
  destruct (sum prec) as [q |]; cbn [mbind result_bind]; [| eauto].
  right. exists t, hm, q. split; reflexivity.
Qed.

(** X2.  One entry of the precipitation series that is not a number (a
    JSON null, a string) makes the gateway drop the whole answer: the
    snapshot is the fallback, with the default temperature and humidity in
    place of the ones the provider sent. *)
Theorem get_openmeteo_weather_null_reading (r : Response)
    (data h : pyval) (xs : list pyval) :
  requests_get rt OPENMETEO_URL (params lat lon) 5 = Ok r ->
  json r = Ok data ->
  getitem data "hourly" = Ok h ->
  getitem h "precipitation" = Ok (PList xs) ->
  Exists (fun v => addable v = false) xs ->
  exists e, get_openmeteo_weather rt lat lon = fallback rt e.
Proof.
  intros E1 E3 E4 E10 X.
  destruct (try_reaches_sum _ _ _ _ E1 E3 E4 E10) as [[e E] | (t & hm & q & S & _)].
  - exists e. unfold get_openmeteo_weather. now rewrite E.
  - simpl in S. rewrite (sum_from_not_addable _ _ X) in S. discriminate S.
Qed.

(** X3.  An answer whose temperature series is empty has no last hour:
    the snapshot is the fallback. *)
Theorem get_openmeteo_weather_empty_series (r : Response) (data h : pyval) :
  requests_get rt OPENMETEO_URL (params lat lon) 5 = Ok r ->
  json r = Ok data ->
  getitem data "hourly" = Ok h ->
  getitem h "temperature_2m" = Ok (PList []) ->
  exists e, get_openmeteo_weather rt lat lon = fallback rt e.
Proof.
  intros E1 E3 E4 E6.
  unfold get_openmeteo_weather, get_openmeteo_weather_try.
  rewrite E1. cbn [mbind result_bind].
  destruct (raise_for_status r); cbn [mbind result_bind]; [| eauto].
  rewrite E3. cbn [mbind result_bind]. rewrite E4. cbn [mbind result_bind].
  destruct (getitem h "time"); cbn [mbind result_bind]; [| eauto].
  rewrite E6. cbn [mbind result_bind].
  destruct (getitem h "relative_humidity_2m"); cbn [mbind result_bind];
    [| eauto].
  destruct (getitem h "precipitation"); cbn [mbind result_bind]; [| eauto].
  cbn [getitem_last last mbind result_bind]. eauto.
Qed.

(** X4.  The error note tells the two kinds of snapshot apart: a snapshot
    without note is what the [try] body computed, and a snapshot with a
    note carries exactly the default readings 25.0, 60.0 and 0.0. *)
Theorem get_openmeteo_weather_error_note :
  let w := get_openmeteo_weather rt lat lon in
  (error w = None /\ get_openmeteo_weather_try rt lat lon = Ok w)
  \/ (exists e, get_openmeteo_weather_try rt lat lon = Raise e
        /\ error w = Some (str rt e)
        /\ temperature w = PNum 25.0 /\ humidity w = PNum 60.0
        /\ rain_24h w = 0.0).
Proof.
  intros w. subst w.
  destruct (get_openmeteo_weather_try rt lat lon) as [w | e] eqn:E.
  - left. destruct (get_openmeteo_weather_observed _ _ _ _ E) as [-> N]. auto.
  - right. exists e. unfold get_openmeteo_weather. rewrite E. simpl. auto.
Qed.

(** X5.  The gateway does not make rain negative: when no entry of the
    precipitation series the provider sends is a negative number, [rain_24h]
    is not negative, fallback included. *)
Theorem get_openmeteo_weather_rain_not_negative :
  (forall r data h xs,
      requests_get rt OPENMETEO_URL (params lat lon) 5 = Ok r ->
      json r = Ok data ->
      getitem data "hourly" = Ok h ->
      getitem h "precipitation" = Ok (PList xs) ->
      Forall not_negative xs) ->
  0 <= rain_24h (get_openmeteo_weather rt lat lon).
Proof.
  intros H. unfold get_openmeteo_weather, get_openmeteo_weather_try.
  destruct (requests_get _ _ _ _) as [r |] eqn:E1; cbn [mbind result_bind];
    [| discriminate].
  destruct (raise_for_status r); cbn [mbind result_bind]; [| discriminate].
  destruct (json r) as [data |] eqn:E3; cbn [mbind result_bind]; [| discriminate].
  destruct (getitem data "hourly") as [h |] eqn:E4; cbn [mbind result_bind];
    [| discriminate].
  destruct (getitem h "time"); cbn [mbind result_bind]; [| discriminate].
  destruct (getitem h "temperature_2m") as [temps |]; cbn [mbind result_bind];
    [| discriminate].
  destruct (getitem h "relative_humidity_2m") as [hums |];
    cbn [mbind result_bind]; [| discriminate].
  destruct (getitem h "precipitation") as [prec |] eqn:E10;
    cbn [mbind result_bind]; [| discriminate].
  destruct (getitem_last temps); cbn [mbind result_bind]; [| discriminate].
  destruct (getitem_last hums); cbn [mbind result_bind]; [| discriminate].
  destruct (sum prec) as [q |] eqn:S; cbn [mbind result_bind rain_24h];
    [| discriminate].
  destruct prec as [| | | s | xs | items]; simpl in S; try discriminate S.
  - destruct (String.eqb s ""); [injection S as <-; apply Qle_refl | discriminate S].
  - apply (sum_from_not_negative 0 q xs); [| apply Qle_refl | exact S].
    exact (H _ _ _ _ eq_refl E3 E4 E10).
  - destruct items; [injection S as <-; apply Qle_refl | discriminate S].
Qed.

End GatewayReadings.

(** ** The gazetteer: the table as a whole, case and blanks *)

Section DictItems.

Context `{Countable K} {V : Type}.

Lemma foldl_insert_lookup_Some (items : list (K * V)) (m : gmap K V) (k : K) (v : V) :
  foldl (fun m kv => <[kv.1 := kv.2]> m) m items !! k = Some v ->
  m !! k = Some v \/ (k, v) ∈ items.
Proof.
  revert m. induction items as [| [k' v'] items IH]; intros m; simpl; [auto |].
  intros E. destruct (IH _ E) as [E' | E']; [| right; now right].
  apply lookup_insert_Some in E'. simpl in E'.
  destruct E' as [[<- <-] | [_ E']]; [right; left | left; exact E'].
Qed.

(** An entry of a dict display is one of its items. *)
Lemma dict_of_items_lookup_Some (items : list (K * V)) (k : K) (v : V) :
  dict_of_items items !! k = Some v -> (k, v) ∈ items.
Proof.
  intros E. apply foldl_insert_lookup_Some in E.
  destruct E as [E | E]; [| exact E]. now rewrite lookup_empty in E.
Qed.

End DictItems.

Section GazetteerTable.

Import weather_service.

Local Open Scope Q_scope.

Lemma location_items_reachable :
  Forall (fun kc => map_location_to_coords kc.1.1 kc.1.2 = kc.2) location_items.
Proof.
  apply Forall_forall. intros kc Hkc.
  unfold map_location_to_coords.
  assert (forallb (fun kc : string * string * (Q * Q) =>
            match location_map !! (lower (strip kc.1.1), lower (strip kc.1.2)) with
            | Some c => Z.eqb (Qnum c.1) (Qnum kc.2.1) && Pos.eqb (Qden c.1) (Qden kc.2.1)
                        && Z.eqb (Qnum c.2) (Qnum kc.2.2) && Pos.eqb (Qden c.2) (Qden kc.2.2)
            | None => false
            end) location_items = true) as F by (vm_compute; reflexivity).
  rewrite forallb_forall in F. apply list_elem_of_In in Hkc.
  specialize (F kc Hkc).
  destruct (location_map !! _) as [[[n1 d1] [n2 d2]] |]; [| discriminate F].
  destruct kc as [k [[m1 e1] [m2 e2]]]. simpl in *.
  repeat (apply andb_prop in F; destruct F as [F ?]).
  apply Z.eqb_eq in F. apply Pos.eqb_eq in H. apply Z.eqb_eq in H0.
  apply Pos.eqb_eq in H1. congruence.
Qed.

(** X6.  No row of the table is dead: for every pair the table lists, the
    lookup returns the coordinate listed with it. *)
Theorem map_location_to_coords_listed (state district : string) (coords : Q * Q) :
  ((state, district), coords) ∈ location_items ->
  map_location_to_coords state district = coords.
Proof.
  intros E. pose proof location_items_reachable as F.
  rewrite Forall_forall in F. exact (F _ E).
Qed.

Lemma location_items_in_range :
  Forall (fun kc : string * string * (Q * Q) =>
            (8 <= kc.2.1 <= 35 /\ 70 <= kc.2.2 <= 95)
            /\ ~ (kc.2.1 == 20 /\ kc.2.2 == 78))
    location_items.
Proof.
  apply Forall_forall. intros kc Hkc.
  assert (forallb (fun kc : string * string * (Q * Q) =>
            Qle_bool 8 kc.2.1 && Qle_bool kc.2.1 35
            && Qle_bool 70 kc.2.2 && Qle_bool kc.2.2 95
            && negb (Qeq_bool kc.2.1 20 && Qeq_bool kc.2.2 78))
            location_items = true) as F by (vm_compute; reflexivity).
  rewrite forallb_forall in F. apply list_elem_of_In in Hkc.
  specialize (F kc Hkc).
  repeat (apply andb_prop in F; destruct F as [F ?]).
  rewrite Qle_bool_iff in F, H0, H1, H2.
  split; [auto |]. intros [A B].
  apply Qeq_bool_iff in A, B. rewrite A, B in H. discriminate H.
Qed.

(** X7.  The fallback coordinate is the coordinate of no listed place, so
    it marks the unknown places: the answer is (20, 78) exactly when the
    normalized pair is not a key of the table. *)
Theorem map_location_to_coords_fallback_iff (state district : string) :
  ((map_location_to_coords state district).1 == 20
   /\ (map_location_to_coords state district).2 == 78)
  <-> location_map !! (lower (strip state), lower (strip district)) = None.
Proof.
  unfold map_location_to_coords.
  destruct (location_map !! _) as [c |] eqn:E.
  - split; [| discriminate]. intros R. exfalso.
    apply dict_of_items_lookup_Some in E.
    pose proof location_items_in_range as F. rewrite Forall_forall in F.
    destruct (F _ E) as [_ N]. now apply N.
  - split; [reflexivity |]. intros _. split; reflexivity.
Qed.

(** X9.  Every answer, the fallback included, lies within India's extent:
    a latitude from 8 to 35 and a longitude from 70 to 95. *)
Theorem map_location_to_coords_in_range (state district : string) :
  8 <= (map_location_to_coords state district).1 <= 35
  /\ 70 <= (map_location_to_coords state district).2 <= 95.
Proof.
  unfold map_location_to_coords.
  destruct (location_map !! _) as [c |] eqn:E.
  - apply dict_of_items_lookup_Some in E.
    pose proof location_items_in_range as F. rewrite Forall_forall in F.
    destruct (F _ E) as [R _]. exact R.
  - simpl. repeat split; discriminate.
Qed.

End GazetteerTable.

Lemma map_location_to_coords_listed_witness :
  (("chhattisgarh", "durg"), (21.1939, 81.2740)%Q) ∈ weather_service.location_items
  /\ weather_service.map_location_to_coords "chhattisgarh" "durg"
     = (21.1939, 81.2740)%Q.
Proof.
  assert ((("chhattisgarh", "durg"), (21.1939, 81.2740)%Q)
          ∈ weather_service.location_items)
    as E by apply list_elem_of_here.
  split; [exact E |].
  exact (map_location_to_coords_listed "chhattisgarh" "durg" _ E).
Defined.

Section Normalization.

Import weather_service.

Lemma lower_char_isspace (c : ascii) : isspace (lower_char c) = isspace c.
Proof. destruct c as [[] [] [] [] [] [] [] []]; reflexivity. Qed.

Lemma append_cons (c : ascii) (s t : string) :
  String c s +:+ t = String c (s +:+ t).
Proof. reflexivity. Qed.

Lemma append_nil (s : string) : "" +:+ s = s.
Proof. reflexivity. Qed.

Lemma append_nil_r (s : string) : s +:+ "" = s.
Proof.
  induction s as [| c s IH]; [reflexivity |]. now rewrite append_cons, IH.
Qed.

Lemma app_assoc_string (s t u : string) : (s +:+ t) +:+ u = s +:+ (t +:+ u).
Proof.
  induction s as [| c s IH]; [reflexivity |]. now rewrite !append_cons, IH.
Qed.

Lemma lstrip_lower (s : string) : lstrip (lower s) = lower (lstrip s).
Proof.
  induction s as [| c s IH]; simpl; [reflexivity |].
  rewrite lower_char_isspace. now destruct (isspace c).
Qed.

Lemma rev_app_lower (s t : string) :
  String.rev_app (lower s) (lower t) = lower (String.rev_app s t).
Proof.
  revert t. induction s as [| c s IH]; intros t; simpl; [reflexivity |].
  apply (IH (String c t)).
Qed.

Lemma rev_lower (s : string) : String.rev (lower s) = lower (String.rev s).
Proof. apply (rev_app_lower s ""). Qed.

(** Stripping and lowercasing commute. *)
Lemma strip_lower (s : string) : strip (lower s) = lower (strip s).
Proof.
  unfold strip, rstrip. now rewrite lstrip_lower, rev_lower, lstrip_lower, rev_lower.
Qed.

Lemma rev_app_spec (s t : string) : String.rev_app s t = String.rev s +:+ t.
Proof.
  unfold String.rev. revert t. induction s as [| c s IH]; intros t; simpl;
    [reflexivity |].
  rewrite (IH (String c t)), (IH (String c "")).
  now rewrite app_assoc_string, append_cons, append_nil.
Qed.

Lemma rev_cons (c : ascii) (s : string) :
  String.rev (String c s) = String.rev s +:+ String c "".
Proof. unfold String.rev at 1. simpl. apply rev_app_spec. Qed.

Lemma rev_app_distr_string (s t : string) :
  String.rev (s +:+ t) = String.rev t +:+ String.rev s.
Proof.
  induction s as [| c s IH].
  - now rewrite append_nil, append_nil_r.
  - now rewrite append_cons, !rev_cons, IH, app_assoc_string.
Qed.

(** Blanks in front of a string are stripped with it. *)
Lemma lstrip_blank_app (ws s : string) :
  lstrip ws = "" -> lstrip (ws +:+ s) = lstrip s.
Proof.
  induction ws as [| c ws IH]; [reflexivity |].
  rewrite append_cons. simpl.
  destruct (isspace c); [exact IH | discriminate].
Qed.

Lemma lstrip_app_blank (s ws : string) :
  lstrip ws = "" ->
  lstrip (s +:+ ws) = lstrip s +:+ ws
  \/ (lstrip s = "" /\ lstrip (s +:+ ws) = "").
Proof.
  intros B. induction s as [| c s IH]; [right; auto |].
  rewrite append_cons. simpl.
  destruct (isspace c); [exact IH | left; reflexivity].
Qed.

Lemma rev_blank (ws : string) : lstrip ws = "" -> lstrip (String.rev ws) = "".
Proof.
  induction ws as [| c ws IH]; [reflexivity |]. simpl.
  destruct (isspace c) eqn:C; [| discriminate]. intros B.
  rewrite rev_cons, lstrip_blank_app by auto.
  simpl. now rewrite C.
Qed.

Lemma rstrip_app_blank (s ws : string) :
  lstrip ws = "" -> rstrip (s +:+ ws) = rstrip s.
Proof.
  intros B. unfold rstrip.
  now rewrite rev_app_distr_string, lstrip_blank_app by now apply rev_blank.
Qed.

(** Blanks around a string do not change what [strip] returns. *)
Lemma strip_blanks (ws1 ws2 s : string) :
  lstrip ws1 = "" -> lstrip ws2 = "" ->
  strip (ws1 +:+ s +:+ ws2) = strip s.
Proof.
  intros B1 B2. unfold strip.
  rewrite lstrip_blank_app by exact B1.
  destruct (lstrip_app_blank s ws2 B2) as [-> | [E ->]].
  - now apply rstrip_app_blank.
  - now rewrite E.
Qed.

(** X8.  The lookup does not see case: two spellings of state and district
    that lowercase to the same strings get the same coordinate. *)
Theorem map_location_to_coords_case (s1 d1 s2 d2 : string) :
  lower s1 = lower s2 ->
  lower d1 = lower d2 ->
  map_location_to_coords s1 d1 = map_location_to_coords s2 d2.
Proof.
  intros Es Ed. apply map_location_to_coords_normalized.
  - now rewrite <- !strip_lower, Es.
  - now rewrite <- !strip_lower, Ed.
Qed.

(** X10.  The lookup does not see blanks around the names: [ws1], [ws2],
    [ws3], [ws4] being strings of whitespace only, padding state and
    district with them gives the same coordinate. *)
Theorem map_location_to_coords_blanks (ws1 ws2 ws3 ws4 state district : string) :
  lstrip ws1 = "" -> lstrip ws2 = "" -> lstrip ws3 = "" -> lstrip ws4 = "" ->
  map_location_to_coords (ws1 +:+ state +:+ ws2) (ws3 +:+ district +:+ ws4)
  = map_location_to_coords state district.
Proof.
  intros B1 B2 B3 B4. apply map_location_to_coords_normalized;
    now rewrite strip_blanks.
Qed.

End Normalization.

Lemma map_location_to_coords_case_witness :
  Py.lower "KARNATAKA" = Py.lower "Karnataka"
  /\ Py.lower "mysuru" = Py.lower "Mysuru"
  /\ weather_service.map_location_to_coords "KARNATAKA" "mysuru"
     = weather_service.map_location_to_coords "Karnataka" "Mysuru".
Proof.
  split; [reflexivity | split; [reflexivity |]].
  exact (map_location_to_coords_case "KARNATAKA" "mysuru" "Karnataka" "Mysuru"
           eq_refl eq_refl).
Defined.

Lemma map_location_to_coords_blanks_witness :
  weather_service.map_location_to_coords (" " +:+ "Goa" +:+ "  ")
    ("" +:+ "Panaji" +:+ " ")
  = weather_service.map_location_to_coords "Goa" "Panaji".
Proof.
  exact (map_location_to_coords_blanks " " "  " "" " " "Goa" "Panaji"
           eq_refl eq_refl eq_refl eq_refl).
Defined.

(** ** The irrigation advisor: bounds, monotonicity, failure *)

Section AdvisorBounds.

Import weather_service irrigation_service.

Local Open Scope Q_scope.

Ltac order_facts :=
  repeat match goal with
         | H : lt _ _ = true |- _ => apply lt_true in H
         | H : lt _ _ = false |- _ => apply lt_false in H
         | H : gt _ _ = true |- _ => apply gt_true in H
         | H : gt _ _ = false |- _ => apply gt_false in H
         end.

Lemma moisture_to_water_mm_range (m : Q) : 0 <= moisture_to_water_mm m <= 20.
Proof.
  destruct (moisture_to_water_mm_values m) as [-> | [-> | [-> | ->]]];
    split; discriminate.
Qed.

(** X11.  Wetter soil never gets more water: the depth tier does not
    increase with the moisture, and it stays between 0 and 20 mm. *)
Theorem moisture_to_water_mm_antitone (m1 m2 : Q) :
  m1 <= m2 ->
  moisture_to_water_mm m2 <= moisture_to_water_mm m1
  /\ 0 <= moisture_to_water_mm m2 <= 20.
Proof.
  intros L. split; [| apply moisture_to_water_mm_range].
  unfold moisture_to_water_mm.
  destruct (lt m1 0.3) eqn:A1, (lt m1 0.5) eqn:A2, (lt m1 0.7) eqn:A3,
    (lt m2 0.3) eqn:B1, (lt m2 0.5) eqn:B2, (lt m2 0.7) eqn:B3;
    order_facts; lra.
Qed.

Lemma rain_adjust_bounds (base r : Q) :
  0 <= base -> 0 <= (rain_adjust base r).1 <= base.
Proof.
  intros B. unfold rain_adjust.
  destruct (gt r 10); [simpl; lra |]. destruct (gt r 5); simpl; lra.
Qed.

Lemma rain_adjust_antitone (base r1 r2 : Q) :
  0 <= base -> r1 <= r2 -> (rain_adjust base r2).1 <= (rain_adjust base r1).1.
Proof.
  intros B L. unfold rain_adjust.
  destruct (gt r1 10) eqn:A1, (gt r1 5) eqn:A2, (gt r2 10) eqn:B1,
    (gt r2 5) eqn:B2; order_facts; simpl; lra.
Qed.

(** X12.  The advised depth is never negative and never more than the
    tier of the moisture: rain only takes water away, and no advice
    exceeds 20 mm. *)
Theorem recommend_irrigation_water_mm_bounds (rt : Runtime)
    (irrigation_model : Classifier) (soil_feel : string) (rate r : Q)
    (advice : Advice) :
  recommend_irrigation rt irrigation_model soil_feel rate r = Success advice ->
  0 <= water_mm advice
  /\ water_mm advice <= moisture_to_water_mm (moisture_level advice)
  /\ moisture_to_water_mm (moisture_level advice) <= 20.
Proof.
  intros H. apply recommend_irrigation_Success, recommend_irrigation_try_Ok in H.
  destruct H as (pred & preds & d & _ & _ & _ & Hm & Hw & _).
  rewrite Hm, Hw, round_depth.
  pose proof (moisture_to_water_mm_range (soil_feel_moisture soil_feel)) as [R1 R2].
  pose proof (rain_adjust_bounds _ r R1) as [R3 R4]. auto.
Qed.

(** X13.  More forecast rain never means more water: of two successful
    recommendations for the same soil, the one with the larger forecast
    advises at most the depth of the other. *)
Theorem recommend_irrigation_rain_antitone (rt : Runtime)
    (irrigation_model : Classifier) (soil_feel : string) (rate1 rate2 r1 r2 : Q)
    (advice1 advice2 : Advice) :
  recommend_irrigation rt irrigation_model soil_feel rate1 r1 = Success advice1 ->
  recommend_irrigation rt irrigation_model soil_feel rate2 r2 = Success advice2 ->
  r1 <= r2 ->
  water_mm advice2 <= water_mm advice1.
Proof.
  intros H1 H2 L.
  apply recommend_irrigation_Success, recommend_irrigation_try_Ok in H1, H2.
  destruct H1 as (? & ? & ? & _ & _ & _ & _ & -> & _).
  destruct H2 as (? & ? & ? & _ & _ & _ & _ & -> & _).
  rewrite !round_depth. apply rain_adjust_antitone; [| exact L].
  apply moisture_to_water_mm_range.
Qed.

(** X14.  Whether [recommend_irrigation] succeeds is a matter of the
    classifier alone: it succeeds exactly when [predict_proba] returns an
    array that has a first row (or one dimension) and [predict] returns a
    first label, whatever the application rate and the forecast. *)
Theorem recommend_irrigation_success_iff (rt : Runtime)
    (irrigation_model : Classifier) (soil_feel : string) (rate r : Q) :
  success (recommend_irrigation rt irrigation_model soil_feel rate r) = true
  <-> exists pred_proba pred preds,
      predict_proba irrigation_model (features_df (soil_feel_moisture soil_feel))
      = Ok pred_proba
      /\ pred_proba <> Arr2 []
      /\ predict irrigation_model (features_df (soil_feel_moisture soil_feel))
         = Ok (pred :: preds).
Proof.
  unfold recommend_irrigation, recommend_irrigation_try. cbv zeta.
  destruct (predict_proba _ _) as [pred_proba |]; cbn [mbind result_bind].
  2: { split; [discriminate | intros (? & ? & ? & E & _); discriminate E]. }
  destruct (predict _ _) as [preds |].
  2: { destruct pred_proba as [v | [| row rows]]; cbn [mbind result_bind success];
       (split; [discriminate | intros (? & ? & ? & _ & _ & E); discriminate E]). }
  destruct pred_proba as [v | [| row rows]]; cbn [mbind result_bind success].
  - destruct preds as [| pred preds]; cbn [mbind result_bind success].
    + split; [discriminate | intros (? & ? & ? & _ & _ & E); discriminate E].
    + destruct (rain_adjust _ _) as [depth reason].
      rewrite duration_total. cbn [mbind result_bind mret result_ret success].
      split; [intros _ | reflexivity].
      exists (Arr1 v), pred, preds. repeat split; [discriminate].
  - split; [discriminate |]. intros (pp & ? & ? & [= <-] & N & _). now elim N.
  - destruct preds as [| pred preds]; cbn [mbind result_bind success].
    + split; [discriminate | intros (? & ? & ? & _ & _ & E); discriminate E].
    + destruct (rain_adjust _ _) as [depth reason].
      rewrite duration_total. cbn [mbind result_bind mret result_ret success].
      split; [intros _ | reflexivity].
      exists (Arr2 (row :: rows)), pred, preds. repeat split; [discriminate].
Qed.

End AdvisorBounds.

Section AdvisorDuration.

Import weather_service irrigation_service.

Local Open Scope Q_scope.

(** X15.  No water, no run time and no irrigation: when the advised depth
    is 0 the duration is 0 and [irrigate] is false, and that is the advice
    whenever more than 10 mm of rain are forecast. *)
Theorem recommend_irrigation_zero_depth (rt : Runtime)
    (irrigation_model : Classifier) (soil_feel : string) (rate r : Q)
    (advice : Advice) :
  recommend_irrigation rt irrigation_model soil_feel rate r = Success advice ->
  (water_mm advice == 0 ->
   duration_hours advice == 0 /\ irrigate advice = false)
  /\ (10 < r ->
      water_mm advice == 0 /\ duration_hours advice == 0
      /\ irrigate advice = false).
Proof.
  intros H.
  apply recommend_irrigation_Success, recommend_irrigation_try_Ok in H.
  destruct H as (pred & preds & d & _ & Hd & Hi & _ & Hw & Hh & _).
  rewrite duration_total in Hd. injection Hd as <-.
  assert (water_mm advice == 0 ->
          duration_hours advice == 0 /\ irrigate advice = false) as Z.
  { rewrite Hw, round_depth, Hh, Hi. intros Z. split.
    - destruct (gt rate 0); [| reflexivity].
      rewrite (round_proper _ 0); [reflexivity |]. rewrite Z. unfold Qdiv. lra.
    - assert (gt (rain_adjust (moisture_to_water_mm (soil_feel_moisture soil_feel)) r).1 0
              = false) as -> by (apply gt_false; lra).
      apply andb_false_r. }
  split; [exact Z |]. intros Heavy.
  assert (water_mm advice == 0) as W
    by (rewrite Hw, round_depth, (rain_adjust_heavy _ _ Heavy); reflexivity).
  destruct (Z W). auto.
Qed.

(** X17.  The reported [model_probability] is the second entry of the
    probability row; a row with fewer than two entries is reported as
    0.5. *)
Theorem recommend_irrigation_model_probability (rt : Runtime)
    (irrigation_model : Classifier) (soil_feel : string) (rate r : Q)
    (advice : Advice)
    (pred_proba : ndarray) :
  recommend_irrigation rt irrigation_model soil_feel rate r = Success advice ->
  predict_proba irrigation_model (features_df (soil_feel_moisture soil_feel))
  = Ok pred_proba ->
  model_probability advice
  = match pred_proba with
    | Arr1 v => nth 1 v 0.5
    | Arr2 rows => nth 1 (nth 0 rows []) 0.5
    end.
Proof.
  intros H E.
  unfold recommend_irrigation, recommend_irrigation_try in H. cbv zeta in H.
  rewrite E in H. cbn [mbind result_bind] in H.
  destruct pred_proba as [v | [| row rows]]; cbn [mbind result_bind] in H;
    try discriminate H;
    (destruct (predict _ _) as [[| pred preds] |]; cbn [mbind result_bind] in H;
     try discriminate H;
     destruct (rain_adjust _ _) as [depth reason];
     rewrite duration_total in H; cbn [mbind result_bind mret result_ret] in H;
     injection H as <-; cbn [model_probability nth]).
  - destruct v as [| ? [| ? ?]]; reflexivity.
  - destruct row as [| ? [| ? ?]]; reflexivity.
Qed.

End AdvisorDuration.

(** ** The irrigation advisor on binary64: signs *)

Section AdvisorSigns.

Import binary64.

Local Open Scope float_scope.

(** *** The sign of a rounded quotient *)

Lemma iter_pos_invariant {A : Type} (P : A -> Prop) (f : A -> A) :
  (forall a, P a -> P (f a)) ->
  forall (n : positive) (a : A), P a -> P (SpecFloat.iter_pos f n a).
Proof.
  intros F. induction n as [n IH | n IH |]; intros a H; simpl; auto.
Qed.

Lemma shr_1_not_negative (mrs : shr_record) :
  (0 <= shr_m mrs)%Z -> (0 <= shr_m (shr_1 mrs))%Z.
Proof.
  destruct mrs as [[| [p | p |] | p] r s]; simpl; lia.
Qed.

Lemma shr_fexp_not_negative (m e : Z) (l : location) :
  (0 <= m)%Z -> (0 <= shr_m (shr_fexp prec emax m e l).1)%Z.
Proof.
  intros H. unfold shr_fexp, shr.
  assert (0 <= shr_m (shr_record_of_loc m l))%Z as R
    by (destruct l as [| []]; exact H).
  destruct (_ - e)%Z; try exact R.
  simpl.
  apply (iter_pos_invariant (fun mrs => (0 <= shr_m mrs)%Z));
    [exact shr_1_not_negative | exact R].
Qed.

Lemma binary_round_aux_not_negative (mx ex : Z) (lx : location) :
  (0 <= mx)%Z ->
  SFleb (S754_zero false) (binary_round_aux prec emax false mx ex lx) = true.
Proof.
  intros H. unfold binary_round_aux.
  pose proof (shr_fexp_not_negative mx ex lx H) as H1.
  destruct (shr_fexp prec emax mx ex lx) as [mrs' e']. simpl in H1.
  assert (0 <= round_nearest_even (shr_m mrs') (loc_of_shr_record mrs'))%Z as H2
    by (unfold round_nearest_even;
        destruct (loc_of_shr_record mrs') as [| []]; [| destruct (Z.even _) | |];
        lia).
  pose proof (shr_fexp_not_negative _ e' loc_Exact H2) as H3.
  destruct (shr_fexp prec emax _ e' loc_Exact) as [mrs'' e'']. simpl in H3.
  destruct (shr_m mrs'') as [| m | m]; [reflexivity | | lia].
  destruct (e'' <=? emax - prec)%Z; reflexivity.
Qed.

(** A quotient of a double that is not below zero by one that is above
    zero is not below zero, unless both are infinite. *)
Lemma SFdiv_not_negative (x y : spec_float) :
  SFleb (S754_zero false) x = true ->
  SFltb (S754_zero false) y = true ->
  x <> S754_infinity false \/ y <> S754_infinity false ->
  SFleb (S754_zero false) (SFdiv prec emax x y) = true.
Proof.
  destruct x as [sx | [] | | [] mx ex]; destruct y as [sy | [] | | [] my ey];
    try discriminate; try reflexivity; try (intros _ _ []; congruence);
    intros _ _ _.
  unfold SFdiv, SFdiv_core_binary. cbv zeta.
  set (m' := match _ with Z0 => _ | Zpos _ => _ | Zneg _ => _ end).
  assert (0 <= m')%Z as M.
  { subst m'. destruct (_ - _ - _)%Z; try lia. now apply Z.shiftl_nonneg. }
  destruct (Z.div_eucl m' (Zpos my)) as [q r] eqn:E.
  simpl xorb. apply binary_round_aux_not_negative.
  assert (q = (m' / Zpos my)%Z) as -> by (unfold Z.div; now rewrite E).
  apply Z.div_pos; lia.
Qed.

Lemma of_uint63_not_negative (k : Uint63.int) :
  SFleb (S754_zero false) (Prim2SF (of_uint63 k)) = true.
Proof.
  rewrite of_uint63_spec.
  pose proof (Uint63.to_Z_bounded k) as [B _].
  unfold binary_normalize. destruct (Uint63.to_Z k) as [| m | m];
    [reflexivity | | lia].
  unfold binary_round. destruct (shl_align _ _ _) as [mz ez].
  apply binary_round_aux_not_negative. lia.
Qed.

Lemma round2_not_negative_binary64 (x : float) :
  (0 <=? x) = true -> (0 <=? round2 x) = true.
Proof.
  intros H. unfold round2, exact, negative.
  pose proof H as H'. rewrite FloatAxioms.leb_spec, Prim2SF_zero in H'.
  destruct (Prim2SF x) as [s | s | | s m e] eqn:X; try exact H.
  destruct (Qeq_bool _ 0); [exact H |].
  destruct (_ <? _)%Z; [| exact H].
  destruct s; [discriminate H' |].
  rewrite FloatAxioms.leb_spec, Prim2SF_zero, div_spec.
  apply SFdiv_not_negative;
    [apply of_uint63_not_negative | reflexivity | right; discriminate].
Qed.

(** X16.  The advised depth and the advised duration are numbers that are
    not below zero, whatever the application rate (negative, zero, not a
    number) and the forecast. *)
Theorem recommend_irrigation_duration_not_negative (rt : Runtime)
    (irrigation_model : Classifier) (soil_feel : string) (rate r : float)
    (advice : Advice) :
  recommend_irrigation rt irrigation_model soil_feel rate r = Success advice ->
  (0 <=? water_mm advice) = true /\ (0 <=? duration_hours advice) = true.
Proof.
  intros H.
  apply recommend_irrigation_binary64_Success, recommend_irrigation_binary64_Ok
    in H.
  destruct H as [Hw Hh]. rewrite Hw, Hh.
  pose proof (depth_values (soil_feel_moisture soil_feel) r) as D.
  set (depth := (rain_adjust _ r).1) in *. clearbody depth.
  assert ((0 <=? depth) = true /\ Prim2SF depth <> S754_infinity false) as [P F].
  { simpl in D.
    destruct D as [<- | [<- | [<- | [<- | [<- | [<- | [<- | []]]]]]]];
      (split; [vm_compute; reflexivity | intros X; vm_compute in X; discriminate X]). }
  split; [exact P |].
  apply round2_not_negative_binary64.
  destruct (0 <? rate) eqn:G; [| reflexivity].
  rewrite FloatAxioms.leb_spec, Prim2SF_zero, div_spec.
  rewrite FloatAxioms.leb_spec, Prim2SF_zero in P.
  rewrite FloatAxioms.ltb_spec, Prim2SF_zero in G.
  apply SFdiv_not_negative; auto.
Qed.

End AdvisorSigns.

Section AdvisorWeather.

Import weather_service irrigation_service.

Local Open Scope Q_scope.

Variable rt : Runtime.
Variable databases : Databases.
Variable irrigation_model : Classifier.
Variable soil_feel : string.
Variable rate : Q.
Variables state_name district_name : string.

(** X18.  [recommend_irrigation_with_weather] never answers with a
    success: it returns its own failure dict, or the failure dict of the
    inner recommendation with weather, state and district attached and
    without the keys of the logger. *)
Theorem recommend_irrigation_with_weather_never_succeeds :
  match recommend_irrigation_with_weather rt databases irrigation_model
          soil_feel rate state_name district_name with
  | Returned l =>
      success (recommendation l) = false
      /\ identity l = None
      /\ state l = state_name /\ district l = district_name
      /\ rain_24h (weather l) = forecast_rain rt state_name district_name
  | Failed error =>
      success (recommend_irrigation rt irrigation_model soil_feel rate
                 (forecast_rain rt state_name district_name)) = true
      /\ error = "Weather-based irrigation recommendation failed: "
                   +:+ str rt (NameError "appwrite_service")
  end.
Proof.
  rewrite recommend_irrigation_with_weather_cases. unfold forecast_rain.
  destruct (map_location_to_coords state_name district_name) as [lat lon].
  destruct (recommend_irrigation _ _ _ _ _); simpl; auto.
Qed.

(** X19.  When the provider cannot be reached the advisor assumes no
    rain: the forecast handed to the policy is 0, so a successful inner
    recommendation advises the full tier of the moisture with the reason
    "No significant rain expected.". *)
Theorem recommend_irrigation_provider_down (e : pyexn) (advice : Advice) :
  (forall url query timeout, requests_get rt url query timeout = Raise e) ->
  recommend_irrigation rt irrigation_model soil_feel rate
    (forecast_rain rt state_name district_name) = Success advice ->
  forecast_rain rt state_name district_name = 0.0
  /\ water_mm advice == moisture_to_water_mm (moisture_level advice)
  /\ reason_weather advice = "No significant rain expected."%string.
Proof.
  intros Down H.
  assert (forecast_rain rt state_name district_name = 0.0) as F.
  { unfold forecast_rain.
    destruct (map_location_to_coords state_name district_name) as [lat lon].
    unfold get_openmeteo_weather.
    now rewrite (try_request_raises rt lat lon e (Down _ _ _)). }
  split; [exact F |]. rewrite F in H.
  apply recommend_irrigation_Success, recommend_irrigation_try_Ok in H.
  destruct H as (pred & preds & d & _ & _ & _ & Hm & Hw & _ & Hr).
  rewrite Hm, Hw, Hr, round_depth, rain_adjust_none by discriminate.
  split; reflexivity.
Qed.

End AdvisorWeather.

(** ** The crop recommender: how many, which, and when *)

Section RecommenderShape.

Import weather_service crop_service.

Local Open Scope Q_scope.

Variable rt : Runtime.
Variable crop_model : Classifier.
Variables soil_type soil_quality state_name district_name : string.

Lemma sorted_app_dominates (l1 l2 : list CropProb) :
  StronglySorted not_below (l1 ++ l2) ->
  Forall (fun a => Forall (fun b => not_below a b) l2) l1.
Proof.
  induction l1 as [| a l1 IH]; simpl; intros S; [constructor |].
  apply StronglySorted_inv in S. destruct S as [S F].
  constructor; [| now apply IH].
  rewrite List.Forall_forall in F. apply Forall_forall. intros b Hb.
  apply F, in_or_app. right. now apply list_elem_of_In.
Qed.

Lemma recommend_crops_of_features (advice : Advice) (npk : NPK) (ph_val : Q)
    (w : Weather) (df_sample : DataFrame) :
  features rt soil_type soil_quality state_name district_name
  = Ok (npk, ph_val, w, df_sample) ->
  recommend_crops rt crop_model soil_type soil_quality state_name district_name
  = Success advice ->
  exists row rows,
    predict_proba crop_model df_sample = Ok (Arr2 (row :: rows))
    /\ recommended_crops advice
       = take 5 (sort_desc
                   (zip_with (fun cls p => {| crop := cls; probability := p |})
                      (classes_ crop_model) row))
    /\ weather advice = w.
Proof.
  intros F. unfold recommend_crops, recommend_crops_try. rewrite F.
  cbn [mbind result_bind].
  destruct (predict_proba crop_model df_sample) as [proba |] eqn:E1;
    cbn [mbind result_bind]; [| discriminate].
  destruct (rank (classes_ crop_model) proba) as [crop_probs |] eqn:E2;
    cbn [mbind result_bind mret result_ret]; [| discriminate].
  apply rank_Ok in E2. destruct E2 as (row & rows & -> & ->).
  intros [= <-]. exists row, rows. auto.
Qed.

(** What a successful recommendation was ranked from: the first row of
    the classifier's answer on the feature row. *)
Lemma recommend_crops_ranked (advice : Advice) :
  recommend_crops rt crop_model soil_type soil_quality state_name district_name
  = Success advice ->
  exists npk ph_val w df_sample row rows,
    features rt soil_type soil_quality state_name district_name
    = Ok (npk, ph_val, w, df_sample)
    /\ predict_proba crop_model df_sample = Ok (Arr2 (row :: rows))
    /\ recommended_crops advice
       = take 5 (sort_desc
                   (zip_with (fun cls p => {| crop := cls; probability := p |})
                      (classes_ crop_model) row))
    /\ weather advice = w.
Proof.
  intros H. pose proof (features_Ok rt soil_type soil_quality state_name
                          district_name) as F. cbv zeta in F.
  destruct (recommend_crops_of_features _ _ _ _ _ F H) as (row & rows & E & R & W).
  eexists _, _, _, _, row, rows. split; [exact F |]. auto.
Qed.

(** X20.  At most five crops are returned: as many as the classifier has
    labels and probabilities, and five when it has more. *)
Theorem recommended_crops_length (advice : Advice) :
  recommend_crops rt crop_model soil_type soil_quality state_name district_name
  = Success advice ->
  exists df_sample row rows,
    predict_proba crop_model df_sample = Ok (Arr2 (row :: rows))
    /\ length (recommended_crops advice)
       = Nat.min 5 (Nat.min (length (classes_ crop_model)) (length row))
    /\ (length (recommended_crops advice) <= 5)%nat.
Proof.
  intros H. apply recommend_crops_ranked in H.
  destruct H as (npk & ph_val & w & df_sample & row & rows & _ & E & -> & _).
  exists df_sample, row, rows. split; [exact E |].
  rewrite length_take, (Permutation_length (sort_desc_perm _)), length_zip_with.
  split; lia.
Qed.

(** X21.  The crops returned are the most probable ones: together with
    the pairs left out they make up all pairs of label and probability,
    and no pair left out is more probable than a crop returned. *)
Theorem recommended_crops_most_probable (advice : Advice) :
  recommend_crops rt crop_model soil_type soil_quality state_name district_name
  = Success advice ->
  exists df_sample row rows others,
    predict_proba crop_model df_sample = Ok (Arr2 (row :: rows))
    /\ Permutation (recommended_crops advice ++ others)
         (zip_with (fun cls p => {| crop := cls; probability := p |})
            (classes_ crop_model) row)
    /\ Forall (fun a => Forall (fun b => probability b <= probability a) others)
         (recommended_crops advice).
Proof.
  intros H. apply recommend_crops_ranked in H.
  destruct H as (npk & ph_val & w & df_sample & row & rows & _ & E & -> & _).
  set (pairs := zip_with _ _ row).
  exists df_sample, row, rows, (drop 5 (sort_desc pairs)).
  split; [exact E |]. rewrite take_drop. split; [apply sort_desc_perm |].
  apply sorted_app_dominates. rewrite take_drop. apply sort_desc_sorted.
Qed.

(** X22.  No label is paired anew: every crop returned carries the
    probability the classifier gave at the position of its label. *)
Theorem recommended_crops_pairing (advice : Advice) (c : CropProb) :
  recommend_crops rt crop_model soil_type soil_quality state_name district_name
  = Success advice ->
  c ∈ recommended_crops advice ->
  exists df_sample row rows (i : nat),
    predict_proba crop_model df_sample = Ok (Arr2 (row :: rows))
    /\ classes_ crop_model !! i = Some (crop c)
    /\ row !! i = Some (probability c).
Proof.
  intros H Hc. apply recommend_crops_ranked in H.
  destruct H as (npk & ph_val & w & df_sample & row & rows & _ & E & R & _).
  rewrite R in Hc. apply elem_of_take in Hc. destruct Hc as (j & Hc & _).
  apply list_elem_of_lookup_2 in Hc. rewrite (sort_desc_perm _) in Hc.
  apply list_elem_of_lookup in Hc. destruct Hc as (i & Hc).
  apply lookup_zip_with_Some in Hc. destruct Hc as (cls & p & -> & L1 & L2).
  exists df_sample, row, rows, i. auto.
Qed.

(** X23.  Whether [recommend_crops] succeeds is a matter of the classifier
    alone: it succeeds exactly when [predict_proba], on the feature row,
    returns a two-dimensional array with a first row.  Neither an unknown
    soil or place nor a weather outage makes it fail. *)
Theorem recommend_crops_success_iff :
  success (recommend_crops rt crop_model soil_type soil_quality state_name
             district_name) = true
  <-> exists npk ph_val w df_sample row rows,
      features rt soil_type soil_quality state_name district_name
      = Ok (npk, ph_val, w, df_sample)
      /\ predict_proba crop_model df_sample = Ok (Arr2 (row :: rows)).
Proof.
  split.
  - destruct (recommend_crops _ _ _ _ _ _) as [advice |] eqn:H; [| discriminate].
    intros _. apply recommend_crops_ranked in H.
    destruct H as (npk & ph_val & w & df_sample & row & rows & F & E & _).
    eauto 10.
  - intros (npk & ph_val & w & df_sample & row & rows & F & E).
    unfold recommend_crops, recommend_crops_try. rewrite F.
    cbn [mbind result_bind]. rewrite E. reflexivity.
Qed.

(** X24.  During a weather outage the classifier is fed the default
    readings: temperature 25.0, humidity 60.0 and rainfall 0.0, and the
    successful answer carries the fallback snapshot with its error note. *)
Theorem recommend_crops_provider_down (e : pyexn) (advice : Advice) :
  (forall url query timeout, requests_get rt url query timeout = Raise e) ->
  recommend_crops rt crop_model soil_type soil_quality state_name district_name
  = Success advice ->
  weather advice = fallback rt e
  /\ exists npk ph_val df_sample,
      features rt soil_type soil_quality state_name district_name
      = Ok (npk, ph_val, fallback rt e, df_sample)
      /\ assoc "Temperature_C" df_sample = Some (PNum 25.0)
      /\ assoc "Humidity_%" df_sample = Some (PNum 60.0)
      /\ assoc "Rainfall_mm" df_sample = Some (PNum 0.0).
Proof.
  intros Down H.
  pose proof (features_Ok rt soil_type soil_quality state_name district_name) as F.
  cbv zeta in F.
  assert (forall lat lon, get_openmeteo_weather rt lat lon = fallback rt e) as G.
  { intros lat lon. unfold get_openmeteo_weather.
    now rewrite (try_request_raises rt lat lon e (Down _ _ _)). }
  rewrite G in F.
  destruct (recommend_crops_of_features _ _ _ _ _ F H) as (_ & _ & _ & _ & W).
  split; [exact W |]. eexists _, _, _. split; [exact F |].
  unfold sample. cbn [assoc String.eqb Ascii.eqb Bool.eqb fallback temperature
                        humidity rain_24h].
  repeat split; reflexivity.
Qed.

End RecommenderShape.

(** ** [main2.py]: the place search *)

Section Geocode.

Import main2.

Local Open Scope list_scope.

Lemma Qeq_bool_sym (x y : Q) : Qeq_bool x y = Qeq_bool y x.
Proof.
  destruct (Qeq_bool x y) eqn:A, (Qeq_bool y x) eqn:B; try reflexivity.
  - apply Qeq_bool_iff, Qeq_sym, Qeq_bool_iff in A. congruence.
  - apply Qeq_bool_iff, Qeq_sym, Qeq_bool_iff in B. congruence.
Qed.

Lemma equal_sym (a b : pyval) : equal a b = equal b a.
Proof.
  destruct a, b; simpl; try reflexivity.
  - destruct b, b0; reflexivity.
  - apply Qeq_bool_sym.
  - apply Qeq_bool_sym.
  - apply Qeq_bool_sym.
  - apply String.eqb_sym.
Qed.

Lemma same_key_sym (k1 k2 : Key) : same_key k1 k2 = same_key k2 k1.
Proof.
  unfold same_key.
  now rewrite (equal_sym k1.1.1), (equal_sym k1.1.2), (equal_sym k1.2).
Qed.

Lemma ForallOrdPairs_snoc {A : Type} (R : A -> A -> Prop) (l : list A) (y : A) :
  ForallOrdPairs R l -> Forall (fun x => R x y) l -> ForallOrdPairs R (l ++ [y]).
Proof.
  induction 1 as [| x l Hx _ IH]; intros F; simpl.
  - constructor; constructor.
  - apply Forall_cons in F. destruct F as [Rxy F]. constructor.
    + apply Forall_app. split; [exact Hx | now constructor].
    + now apply IH.
Qed.

Lemma existsb_false_Forall (key : Key) (unique : list (Key * pyval)) :
  existsb (fun entry => same_key key entry.1) unique = false ->
  Forall (fun entry => apart entry (key, entry.2)) unique.
Proof.
  intros E. apply Forall_forall. intros entry Hin. unfold apart. simpl.
  rewrite same_key_sym.
  destruct (same_key key entry.1) eqn:S; [| reflexivity].
  assert (existsb (fun entry => same_key key entry.1) unique = true) as T.
  { apply existsb_exists. exists entry. split; [now apply list_elem_of_In | exact S]. }
  congruence.
Qed.

(** What the loop keeps true of [unique], and where its entries come from. *)
Lemma collect_invariant (items : list pyval) (unique unique' : list (Key * pyval)) :
  collect unique items = Ok unique' ->
  Forall keyed unique -> ForallOrdPairs apart unique ->
  Forall keyed unique' /\ ForallOrdPairs apart unique'
  /\ (exists added, unique' = unique ++ added
                    /\ Forall (fun entry => entry.2 ∈ items) added).
Proof.
  revert unique. induction items as [| item rest IH]; intros unique; simpl.
  - intros [= <-] K D. repeat split; auto. exists []. split; [| constructor].
    now rewrite app_nil_r.
  - destruct (key_of item) as [key |] eqn:E; cbn [mbind result_bind];
      [| discriminate].
    destruct (existsb _ unique) eqn:X; intros C K D.
    + destruct (IH _ C K D) as (K' & D' & added & -> & F).
      repeat split; auto. exists added. split; [reflexivity |].
      eapply Forall_impl; [exact F |]. intros entry Hin. now right.
    + assert (Forall keyed (unique ++ [(key, item)])) as K1
        by (apply Forall_app; split; [exact K | repeat constructor; exact E]).
      assert (ForallOrdPairs apart (unique ++ [(key, item)])) as D1.
      { apply ForallOrdPairs_snoc; [exact D |].
        apply existsb_false_Forall in X.
        eapply Forall_impl; [exact X |]. intros entry A. exact A. }
      destruct (IH _ C K1 D1) as (K' & D' & added & -> & F).
      repeat split; auto. exists ((key, item) :: added).
      split; [now rewrite <- app_assoc |].
      constructor; [now left |].
      eapply Forall_impl; [exact F |]. intros entry Hin. now right.
Qed.

Lemma place_of_key (item : pyval) (key : Key) (p : Place) :
  key_of item = Ok key -> place_of item = Ok p -> place_key p = key.
Proof.
  unfold key_of, place_of.
  destruct (getitem item "name") as [n |]; cbn [mbind result_bind]; [| discriminate].
  destruct (getitem item "region") as [r |]; cbn [mbind result_bind]; [| discriminate].
  destruct (getitem item "country") as [c |]; cbn [mbind result_bind]; [| discriminate].
  destruct (hashable n && hashable r && hashable c); [| discriminate].
  intros [= <-].
  destruct (getitem item "lat"); cbn [mbind result_bind]; [| discriminate].
  destruct (getitem item "lon"); cbn [mbind result_bind mret result_ret];
    [| discriminate].
  now intros [= <-].
Qed.

(** [final] entry by entry: the place of each item of [unique], in order. *)
Lemma places_Forall2 (vs : list pyval) (final : list Place) :
  places vs = Ok final -> Forall2 (fun v p => place_of v = Ok p) vs final.
Proof.
  revert final. induction vs as [| v vs IH]; intros final; simpl.
  - intros [= <-]. constructor.
  - destruct (place_of v) as [p |] eqn:E; cbn [mbind result_bind]; [| discriminate].
    destruct (places vs) as [ps |]; cbn [mbind result_bind mret result_ret];
      [| discriminate].
    intros [= <-]. constructor; [exact E | now apply IH].
Qed.

Lemma places_apart (unique : list (Key * pyval)) (final : list Place) :
  Forall keyed unique -> ForallOrdPairs apart unique ->
  places (snd <$> unique) = Ok final ->
  ForallOrdPairs (fun p1 p2 => same_key (place_key p1) (place_key p2) = false)
    final.
Proof.
  intros K D P. apply places_Forall2 in P. revert final P.
  induction D as [| entry unique Hx D IH]; intros final P.
  - inversion P. constructor.
  - rewrite fmap_cons in P. inversion P as [| v p vs ps Hp Hps]; subst.
    apply Forall_cons in K. destruct K as [Ke K].
    constructor; [| now apply IH].
    clear IH D P. revert ps Hps.
    induction Hx as [| e2 unique Ha _ IH2]; intros ps Hps.
    + inversion Hps. constructor.
    + rewrite fmap_cons in Hps. inversion Hps as [| v2 p2 vs2 ps2 Hp2 Hps2]; subst.
      apply Forall_cons in K. destruct K as [Ke2 K].
      constructor; [| now apply IH2].
      rewrite (place_of_key _ _ _ Ke Hp), (place_of_key _ _ _ Ke2 Hp2).
      exact Ha.
Qed.

(** What an answer of [geocode] was computed from. *)
Lemma geocode_Answer (client_get_json : string -> result pyval) (q : string)
    (final : list Place) :
  geocode client_get_json q = Answer final ->
  exists items unique,
    client_get_json (search_url q) = Ok (PList items)
    /\ items <> []
    /\ collect [] items = Ok unique
    /\ places (snd <$> unique) = Ok final.
Proof.
  unfold geocode.
  destruct (client_get_json _) as [data |] eqn:E; [| discriminate].
  destruct (truth data) eqn:T; cbn [negb]; [| discriminate].
  destruct data as [| | | s | items | dict]; cbn [iterate mbind result_bind];
    try discriminate.
  - destruct s as [| c s']; [discriminate T | simpl; discriminate].
  - destruct (collect [] items) as [unique |] eqn:C; cbn [mbind result_bind];
      [| discriminate].
    destruct (places _) as [ps |] eqn:P; [| discriminate].
    intros [= <-]. exists items, unique. split; [reflexivity |].
    repeat split; auto.
    intros ->. discriminate T.
  - destruct dict as [| [k v] dict]; [discriminate T | simpl; discriminate].
Qed.

(** X25.  An answer of the place search lists no place twice: any two of
    its entries differ in name, region or country. *)
Theorem geocode_no_duplicates (client_get_json : string -> result pyval)
    (q : string) (final : list Place) :
  geocode client_get_json q = Answer final ->
  ForallOrdPairs (fun p1 p2 => same_key (place_key p1) (place_key p2) = false)
    final.
Proof.
  intros H. apply geocode_Answer in H.
  destruct H as (items & unique & _ & _ & C & P).
  destruct (collect_invariant _ _ _ C) as (K & D & _); [constructor .. |].
  exact (places_apart _ _ K D P).
Qed.

Lemma collect_extends (items : list pyval) (unique unique' : list (Key * pyval)) :
  collect unique items = Ok unique' -> exists added, unique' = unique ++ added.
Proof.
  revert unique. induction items as [| item rest IH]; intros unique; simpl.
  - intros [= <-]. exists []. now rewrite app_nil_r.
  - destruct (key_of item) as [key |]; cbn [mbind result_bind]; [| discriminate].
    destruct (existsb _ unique); intros C; [now apply IH |].
    destruct (IH _ C) as [added ->]. exists ((key, item) :: added).
    now rewrite <- app_assoc.
Qed.

(** An item whose key neither is in [unique] nor belongs to an earlier
    item is stored. *)
Lemma collect_keeps (items : list pyval) (unique unique' : list (Key * pyval))
    (i : nat) (item : pyval) (key : Key) :
  collect unique items = Ok unique' ->
  items !! i = Some item ->
  key_of item = Ok key ->
  existsb (fun entry => same_key key entry.1) unique = false ->
  (forall j item' key',
      (j < i)%nat -> items !! j = Some item' -> key_of item' = Ok key' ->
      same_key key key' = false) ->
  (key, item) ∈ unique'.
Proof.
  revert unique i. induction items as [| item0 rest IH]; intros unique i;
    [discriminate |].
  simpl. destruct (key_of item0) as [key0 |] eqn:E0; cbn [mbind result_bind];
    [| discriminate].
  destruct i as [| i]; simpl.
  - intros C [= ->] K X _. rewrite K in E0. injection E0 as <-.
    rewrite X in C. apply collect_extends in C. destruct C as [added ->].
    rewrite <- app_assoc. apply elem_of_app. right. now left.
  - intros C L K X Earlier.
    assert (same_key key key0 = false) as N
      by (apply (Earlier 0%nat item0 key0); [lia | reflexivity | exact E0]).
    assert (forall j item' key',
               (j < i)%nat -> rest !! j = Some item' -> key_of item' = Ok key' ->
               same_key key key' = false) as Earlier'
      by (intros j item' key' Hj; apply (Earlier (S j)); lia).
    destruct (existsb _ unique) eqn:X0.
    + exact (IH _ _ C L K X Earlier').
    + apply (IH _ _ C L K); [| exact Earlier'].
      rewrite existsb_app. simpl. now rewrite X, N.
Qed.

Lemma places_member (vs : list pyval) (final : list Place) (v : pyval) :
  places vs = Ok final -> v ∈ vs -> exists p, place_of v = Ok p /\ p ∈ final.
Proof.
  intros P. apply places_Forall2 in P.
  induction P as [| v0 p0 vs ps R _ IH]; intros Hin.
  - now apply elem_of_nil in Hin.
  - apply elem_of_cons in Hin. destruct Hin as [-> | Hin].
    + exists p0. split; [exact R | now left].
    + destruct (IH Hin) as (p & Hp & Hm). exists p. split; [exact Hp | now right].
Qed.

Lemma places_origin (vs : list pyval) (final : list Place) :
  places vs = Ok final ->
  Forall (fun p => exists v, v ∈ vs /\ place_of v = Ok p) final.
Proof.
  intros P. apply places_Forall2 in P.
  induction P as [| v0 p0 vs ps R _ IH]; constructor.
  - exists v0. split; [now left | exact R].
  - eapply Forall_impl; [exact IH |]. intros p (v & Hin & Hp).
    exists v. split; [now right | exact Hp].
Qed.

(** X26.  The place search keeps the first of several items with the same
    name, region and country: an item of the provider's list whose key no
    earlier item has is in the answer, with its own coordinates. *)
Theorem geocode_keeps_first (client_get_json : string -> result pyval)
    (q : string) (final : list Place) (items : list pyval) (i : nat)
    (item : pyval) (key : Key) :
  geocode client_get_json q = Answer final ->
  client_get_json (search_url q) = Ok (PList items) ->
  items !! i = Some item ->
  key_of item = Ok key ->
  (forall j item' key',
      (j < i)%nat -> items !! j = Some item' -> key_of item' = Ok key' ->
      same_key key key' = false) ->
  exists p, place_of item = Ok p /\ p ∈ final /\ place_key p = key.
Proof.
  intros H E L K Earlier. apply geocode_Answer in H.
  destruct H as (items' & unique & E' & _ & C & P).
  rewrite E in E'. injection E' as <-.
  assert ((key, item) ∈ unique) as M
    by (apply (collect_keeps _ _ _ _ _ _ C L K); [reflexivity | exact Earlier]).
  destruct (places_member _ _ item P) as (p & Hp & Hm).
  { apply list_elem_of_fmap. exists (key, item). split; [reflexivity | exact M]. }
  exists p. repeat split; auto. exact (place_of_key _ _ _ K Hp).
Qed.

(** X27.  The place search answers with places only when the provider
    lists some: an empty (falsy) body is a 404 "Location not found", and
    an answer is never empty and consists of places of the provider's
    list. *)
Theorem geocode_not_found (client_get_json : string -> result pyval)
    (q : string) (data : pyval) :
  client_get_json (search_url q) = Ok data ->
  (truth data = false ->
   geocode client_get_json q = HTTPException 404 "Location not found")
  /\ (forall final,
        geocode client_get_json q = Answer final ->
        final <> []
        /\ exists items,
            data = PList items
            /\ Forall (fun p => exists item, item ∈ items /\ place_of item = Ok p)
                 final).
Proof.
  intros E. split.
  - intros T. unfold geocode. cbv zeta. now rewrite E, T.
  - intros final H. apply geocode_Answer in H.
    destruct H as (items & unique & E' & N & C & P).
    rewrite E in E'. injection E' as ->.
    destruct (collect_invariant _ _ _ C) as (_ & _ & added & -> & F);
      [constructor .. |].
    split.
    + destruct items as [| item rest]; [now elim N |].
      simpl in C. destruct (key_of item) as [key |]; cbn [mbind result_bind] in C;
        [| discriminate C].
      apply collect_extends in C. destruct C as [more C].
      simpl in C. rewrite C in P. simpl in P.
      destruct (place_of item); cbn [mbind result_bind] in P; [| discriminate P].
      destruct (places _); cbn [mbind result_bind mret result_ret] in P;
        [| discriminate P].
      injection P as <-. discriminate.
    + exists items. split; [reflexivity |].
      apply places_origin in P. eapply Forall_impl; [exact P |].
      intros p (v & Hin & Hp). exists v. split; [| exact Hp].
      apply list_elem_of_fmap in Hin. destruct Hin as (entry & -> & Hin).
      rewrite Forall_forall in F. exact (F _ Hin).
Qed.

End Geocode.

(** ** [main2.py]: the forecast analytics *)

Section Analytics.

Import main2.

Local Open Scope Q_scope.

Lemma add_number (acc t : Q) (v : pyval) :
  add acc v = Ok t -> exists x, number v = Ok x /\ t = acc + x.
Proof. destruct v; simpl; try discriminate; intros [= <-]; eauto. Qed.

(** [max] returns an element of the list that no element exceeds. *)
Lemma max_from_greatest (xs : list pyval) (best mx : Q) :
  max_from best xs = Ok mx ->
  best <= mx
  /\ Forall (fun v => exists x, number v = Ok x /\ x <= mx) xs
  /\ (mx = best \/ Exists (fun v => number v = Ok mx) xs).
Proof.
  revert best. induction xs as [| v xs IH]; intros best.
  - simpl. intros [= <-]. split; [lra |]. split; [constructor | now left].
  - cbn [max_from mbind result_bind].
    destruct (number v) as [x |] eqn:N; cbn [mbind result_bind]; [| discriminate].
    intros M. destruct (IH _ M) as (B & F & A).
    assert (x <= mx /\ best <= mx) as [X1 X2].
    { destruct (gt x best) eqn:G; [apply gt_true in G | apply gt_false in G];
        split; lra. }
    split; [exact X2 |]. split; [constructor; eauto |].
    destruct A as [A | A]; [| right; now constructor].
    destruct (gt x best); [right; constructor; now rewrite A | now left].
Qed.

(** [min] returns an element of the list that no element is below. *)
Lemma min_from_least (xs : list pyval) (low mn : Q) :
  min_from low xs = Ok mn ->
  mn <= low
  /\ Forall (fun v => exists x, number v = Ok x /\ mn <= x) xs
  /\ (mn = low \/ Exists (fun v => number v = Ok mn) xs).
Proof.
  revert low. induction xs as [| v xs IH]; intros low.
  - simpl. intros [= <-]. split; [lra |]. split; [constructor | now left].
  - cbn [min_from mbind result_bind].
    destruct (number v) as [x |] eqn:N; cbn [mbind result_bind]; [| discriminate].
    intros M. destruct (IH _ M) as (B & F & A).
    assert (mn <= x /\ mn <= low) as [X1 X2].
    { destruct (lt x low) eqn:G; [apply lt_true in G | apply lt_false in G];
        split; lra. }
    split; [exact X2 |]. split; [constructor; eauto |].
    destruct A as [A | A]; [| right; now constructor].
    destruct (lt x low); [right; constructor; now rewrite A | now left].
Qed.

Lemma extremes_enclose (xs : list pyval) (mx mn : Q) :
  max_of xs = Ok mx -> min_of xs = Ok mn ->
  Forall (fun v => exists x, number v = Ok x /\ mn <= x <= mx) xs
  /\ Exists (fun v => number v = Ok mx) xs
  /\ Exists (fun v => number v = Ok mn) xs
  /\ mn <= mx.
Proof.
  unfold max_of, min_of. destruct xs as [| v xs]; [discriminate |].
  destruct (number v) as [x |] eqn:N; cbn [mbind result_bind]; [| discriminate].
  intros M L.
  destruct (max_from_greatest _ _ _ M) as (B1 & F1 & A1).
  destruct (min_from_least _ _ _ L) as (B2 & F2 & A2).
  split; [| split; [| split]].
  - constructor; [exists x; split; [exact N | lra] |].
    rewrite List.Forall_forall in F1, F2 |- *. intros u U.
    destruct (F1 u U) as (y & Y & Y1). destruct (F2 u U) as (y' & Y' & Y2).
    rewrite Y in Y'. injection Y' as <-. exists y. split; [exact Y | lra].
  - destruct A1 as [-> | A1]; [now constructor | now constructor 2].
  - destruct A2 as [-> | A2]; [now constructor | now constructor 2].
  - lra.
Qed.

Lemma extremes_from_summable (xs : list pyval) (acc total best low : Q) :
  sum_from acc xs = Ok total ->
  exists mx mn, max_from best xs = Ok mx /\ min_from low xs = Ok mn.
Proof.
  revert acc best low. induction xs as [| v xs IH]; intros acc best low.
  - intros _. exists best, low. split; reflexivity.
  - cbn [sum_from max_from min_from mbind result_bind].
    destruct (add acc v) as [t |] eqn:A; cbn [mbind result_bind]; [| discriminate].
    apply add_number in A. destruct A as (x & -> & ->).
    cbn [mbind result_bind]. apply IH.
Qed.

(** Where the endpoint calls [max] and [min] they return: the list has
    been summed and its length divided by, so it is not empty and every
    element of it is a number. *)
Lemma extremes_after_mean (xs : list pyval) (avg : Q) :
  mean xs = Ok avg -> exists mx mn, max_of xs = Ok mx /\ min_of xs = Ok mn.
Proof.
  unfold mean, max_of, min_of. destruct xs as [| v xs]; [discriminate |].
  cbn [sum sum_from mbind result_bind].
  destruct (add 0 v) as [t |] eqn:A; cbn [mbind result_bind]; [| discriminate].
  apply add_number in A. destruct A as (x & -> & ->). cbn [mbind result_bind].
  destruct (sum_from (0 + x) xs) as [total |] eqn:S; cbn [mbind result_bind];
    [| discriminate].
  intros _. exact (extremes_from_summable _ _ _ x x S).
Qed.

(** The loop adds one reading per day to each list and at most one to the
    counter. *)
Lemma gather_counts (days : list pyval) (acc s : Series) :
  gather acc days = Ok s ->
  length (temps s) = (length (temps acc) + length days)%nat
  /\ (extreme_days acc <= extreme_days s
      <= extreme_days acc + Z.of_nat (length days))%Z.
Proof.
  revert acc. induction days as [| d days IH]; intros acc; simpl.
  - intros [= <-]. split; lia.
  - destruct (getitem d "day") as [day |]; cbn [mbind result_bind]; [| discriminate].
    destruct (getitem day "avgtemp_c"); cbn [mbind result_bind]; [| discriminate].
    destruct (getitem day "totalprecip_mm"); cbn [mbind result_bind];
      [| discriminate].
    destruct (getitem day "avghumidity"); cbn [mbind result_bind]; [| discriminate].
    destruct (getitem day "maxwind_kph"); cbn [mbind result_bind]; [| discriminate].
    destruct (is_extreme day) as [extreme |]; cbn [mbind result_bind];
      [| discriminate].
    intros G. apply IH in G. cbn [temps extreme_days] in G.
    rewrite length_app in G. simpl in G. destruct G as [G1 G2].
    split; [lia |]. destruct extreme; lia.
Qed.

(** The temperatures of the loop are the [avgtemp_c] of the days, one per
    day and in their order. *)
Lemma gather_temps (days : list pyval) (acc s : Series) :
  gather acc days = Ok s ->
  exists ts,
    temps s = (temps acc ++ ts)%list
    /\ Forall2 (fun d t => exists day,
                  getitem d "day" = Ok day /\ getitem day "avgtemp_c" = Ok t)
         days ts.
Proof.
  revert acc. induction days as [| d days IH]; intros acc; simpl.
  - intros [= <-]. exists []. split; [now rewrite app_nil_r | constructor].
  - destruct (getitem d "day") as [day |] eqn:D; cbn [mbind result_bind];
      [| discriminate].
    destruct (getitem day "avgtemp_c") as [t |] eqn:T; cbn [mbind result_bind];
      [| discriminate].
    destruct (getitem day "totalprecip_mm"); cbn [mbind result_bind];
      [| discriminate].
    destruct (getitem day "avghumidity"); cbn [mbind result_bind]; [| discriminate].
    destruct (getitem day "maxwind_kph"); cbn [mbind result_bind]; [| discriminate].
    destruct (is_extreme day) as [extreme |]; cbn [mbind result_bind];
      [| discriminate].
    intros G. apply IH in G. cbn [temps] in G. destruct G as (ts & E & F).
    exists (t :: ts). split; [rewrite E, <- app_assoc; reflexivity |].
    constructor; [exists day; auto | exact F].
Qed.

(** What an answer of [get_analytics] was computed from. *)
Lemma get_analytics_Answer (fetched : result pyval) (out : AnalyticsOut) :
  get_analytics fetched = Answer out ->
  exists body forecast data days s,
    fetched = Ok body
    /\ getitem body "forecast" = Ok forecast
    /\ getitem forecast "forecastday" = Ok data
    /\ iterate data = Ok days
    /\ gather {| temps := []; rains := []; hums := []; winds := [];
                 extreme_days := 0 |} days = Ok s
    /\ mean (temps s) = Ok (avgTemp out)
    /\ max_of (temps s) = Ok (maxTemp out)
    /\ min_of (temps s) = Ok (minTemp out)
    /\ sum (PList (rains s)) = Ok (totalRainfall out)
    /\ extremeDays out = extreme_days s.
Proof.
  unfold get_analytics.
  destruct fetched as [body |]; cbn [mbind result_bind]; [| discriminate].
  destruct (getitem body "forecast") as [forecast |] eqn:E1;
    cbn [mbind result_bind]; [| discriminate].
  destruct (getitem forecast "forecastday") as [data |] eqn:E2;
    cbn [mbind result_bind]; [| discriminate].
  destruct (iterate data) as [days |] eqn:E3; cbn [mbind result_bind];
    [| discriminate].
  destruct (gather _ days) as [s |] eqn:E4; cbn [mbind result_bind];
    [| discriminate].
  destruct (mean (temps s)) as [avg |] eqn:E5; cbn [mbind result_bind];
    [| discriminate].
  destruct (max_of (temps s)) as [mx |] eqn:E6; cbn [mbind result_bind];
    [| discriminate].
  destruct (min_of (temps s)) as [mn |] eqn:E7; cbn [mbind result_bind];
    [| discriminate].
  destruct (sum (PList (rains s))) as [rain |] eqn:E8; cbn [mbind result_bind];
    [| discriminate].
  destruct (mean (hums s)); cbn [mbind result_bind]; [| discriminate].
  destruct (mean (winds s)); cbn [mbind result_bind mret result_ret];
    [| discriminate].
  intros [= <-]. exists body, forecast, data, days, s. simpl. auto 12.
Qed.

(** X28.  In an answer of the analytics [minTemp] and [maxTemp] are
    [avgtemp_c] readings of forecast days, and the reading of every
    forecast day lies between them. *)
Theorem get_analytics_temperature_extremes (fetched : result pyval)
    (out : AnalyticsOut) :
  get_analytics fetched = Answer out ->
  exists body forecast data days ts,
    fetched = Ok body
    /\ getitem body "forecast" = Ok forecast
    /\ getitem forecast "forecastday" = Ok data
    /\ iterate data = Ok days
    /\ Forall2 (fun d t => exists day,
                  getitem d "day" = Ok day /\ getitem day "avgtemp_c" = Ok t)
         days ts
    /\ Forall (fun t => exists x,
                 number t = Ok x /\ minTemp out <= x <= maxTemp out) ts
    /\ Exists (fun t => number t = Ok (maxTemp out)) ts
    /\ Exists (fun t => number t = Ok (minTemp out)) ts
    /\ minTemp out <= maxTemp out.
Proof.
  intros H. apply get_analytics_Answer in H.
  destruct H as (body & forecast & data & days & s & E0 & E1 & E2 & E3 & G
                 & _ & M & N & _).
  destruct (gather_temps _ _ _ G) as (ts & T & F). simpl in T. rewrite T in M, N.
  destruct (extremes_enclose _ _ _ M N) as (B & X1 & X2 & O).
  exists body, forecast, data, days, ts. auto 12.
Qed.

(** X29.  An answer of the analytics is about at least one forecast day,
    and the count of extreme days is between 0 and the number of days. *)
Theorem get_analytics_extreme_days (fetched : result pyval) (out : AnalyticsOut) :
  get_analytics fetched = Answer out ->
  exists body forecast data days,
    fetched = Ok body
    /\ getitem body "forecast" = Ok forecast
    /\ getitem forecast "forecastday" = Ok data
    /\ iterate data = Ok days
    /\ days <> []
    /\ (0 <= extremeDays out <= Z.of_nat (length days))%Z.
Proof.
  intros H. apply get_analytics_Answer in H.
  destruct H as (body & forecast & data & days & s & E0 & E1 & E2 & E3 & G
                 & A & _ & _ & _ & ->).
  exists body, forecast, data, days. repeat split; auto.
  - intros ->. simpl in G. injection G as <-. discriminate A.
  - apply gather_counts in G. simpl in G. lia.
  - apply gather_counts in G. simpl in G. lia.
Qed.

(** X30.  A forecast without days is not answered: the averages divide by
    the number of days, and the [ZeroDivisionError] leaves the endpoint
    uncaught. *)
Theorem get_analytics_no_days (fetched : result pyval) (body forecast data : pyval) :
  fetched = Ok body ->
  getitem body "forecast" = Ok forecast ->
  getitem forecast "forecastday" = Ok data ->
  iterate data = Ok [] ->
  get_analytics fetched = Unhandled ZeroDivisionError.
Proof.
  intros -> E1 E2 E3. unfold get_analytics. cbn [mbind result_bind].
  rewrite E1. cbn [mbind result_bind]. rewrite E2. cbn [mbind result_bind].
  rewrite E3. reflexivity.
Qed.

End Analytics.

(** ** Concrete runs of the further properties *)

Lemma get_openmeteo_weather_reads_series_witness :
  let w := weather_service.get_openmeteo_weather
             (fixtures.online [PNum 0.4; PNum 1.1]) 21.1939 81.2740 in
  weather_service.temperature w = PNum 31.0
  /\ weather_service.humidity w = PNum 64
  /\ weather_service.timestamp w = "2025-06-01T02:00:00"
  /\ weather_service.error w = None.
Proof.
  refine (get_openmeteo_weather_reads_series
            (fixtures.online [PNum 0.4; PNum 1.1]) 21.1939 81.2740
            {| raise_for_status := Ok ();
               json := Ok (fixtures.hourly_body [PNum 0.4; PNum 1.1]) |}
            (fixtures.hourly_body [PNum 0.4; PNum 1.1])
            (PDict [("time", PList [PStr "2025-06-01T00:00"; PStr "2025-06-01T01:00"]);
                    ("temperature_2m", PList [PNum 29.5; PNum 31.0]);
                    ("relative_humidity_2m", PList [PNum 70; PNum 64]);
                    ("precipitation", PList [PNum 0.4; PNum 1.1])])
            (PList [PStr "2025-06-01T00:00"; PStr "2025-06-01T01:00"])
            (PNum 31.0) (PNum 64) [PNum 29.5; PNum 31.0] [PNum 70; PNum 64]
            [PNum 0.4; PNum 1.1]
            eq_refl eq_refl eq_refl eq_refl eq_refl eq_refl eq_refl eq_refl
            eq_refl eq_refl _).
  repeat constructor.
Defined.

Lemma get_openmeteo_weather_null_reading_witness :
  exists e,
    weather_service.get_openmeteo_weather (fixtures.online [PNum 0.4; PNone])
      21.1939 81.2740
    = weather_service.fallback (fixtures.online [PNum 0.4; PNone]) e.
Proof.
  refine (get_openmeteo_weather_null_reading
            (fixtures.online [PNum 0.4; PNone]) 21.1939 81.2740
            {| raise_for_status := Ok ();
               json := Ok (fixtures.hourly_body [PNum 0.4; PNone]) |}
            (fixtures.hourly_body [PNum 0.4; PNone]) _ [PNum 0.4; PNone]
            eq_refl eq_refl eq_refl eq_refl _).
  apply Exists_cons_tl, Exists_cons_hd. reflexivity.
Defined.

Lemma get_openmeteo_weather_empty_series_witness :
  exists e,
    weather_service.get_openmeteo_weather scenarios.no_hours 21.1939 81.2740
    = weather_service.fallback scenarios.no_hours e.
Proof.
  exact (get_openmeteo_weather_empty_series scenarios.no_hours 21.1939 81.2740
           _ _ _ eq_refl eq_refl eq_refl eq_refl).
Defined.

Lemma get_openmeteo_weather_rain_not_negative_witness :
  (0 <= weather_service.rain_24h
          (weather_service.get_openmeteo_weather
             (fixtures.online [PNum 0.4; PNum 1.1]) 21.1939 81.2740))%Q.
Proof.
  apply get_openmeteo_weather_rain_not_negative.
  intros r data h xs E1 E2 E3 E4.
  injection E1 as <-. injection E2 as <-.
  vm_compute in E3. injection E3 as <-.
  vm_compute in E4. injection E4 as <-.
  repeat constructor; discriminate.
Defined.

Lemma moisture_to_water_mm_antitone_witness :
  (0.2 <= 0.5)%Q
  /\ (irrigation_service.moisture_to_water_mm 0.5
      <= irrigation_service.moisture_to_water_mm 0.2)%Q.
Proof.
  assert (0.2 <= 0.5)%Q as L by discriminate.
  split; [exact L |]. exact (proj1 (moisture_to_water_mm_antitone 0.2 0.5 L)).
Defined.

Lemma recommend_irrigation_water_mm_bounds_witness :
  exists advice,
    irrigation_service.recommend_irrigation fixtures.timed_out
      fixtures.eager_model "slightly damp" 4 7 = Success advice
    /\ (0 <= irrigation_service.water_mm advice)%Q.
Proof.
  eexists. split; [reflexivity |].
  exact (proj1 (recommend_irrigation_water_mm_bounds fixtures.timed_out
                  fixtures.eager_model "slightly damp" 4 7 _ eq_refl)).
Defined.

Lemma recommend_irrigation_rain_antitone_witness :
  exists advice1 advice2,
    irrigation_service.recommend_irrigation fixtures.timed_out
      fixtures.eager_model "dry and crumbly" 4 2 = Success advice1
    /\ irrigation_service.recommend_irrigation fixtures.timed_out
         fixtures.eager_model "dry and crumbly" 4 7 = Success advice2
    /\ (irrigation_service.water_mm advice2
        <= irrigation_service.water_mm advice1)%Q.
Proof.
  eexists _, _. split; [reflexivity |]. split; [reflexivity |].
  refine (recommend_irrigation_rain_antitone fixtures.timed_out
            fixtures.eager_model "dry and crumbly" 4 4 2 7 _ _
            eq_refl eq_refl _).
  discriminate.
Defined.

Lemma recommend_irrigation_zero_depth_witness :
  exists advice,
    irrigation_service.recommend_irrigation fixtures.timed_out
      fixtures.eager_model "dry and crumbly" 4 12 = Success advice
    /\ (irrigation_service.duration_hours advice == 0)%Q
    /\ irrigation_service.irrigate advice = false.
Proof.
  eexists. split; [reflexivity |].
  destruct (recommend_irrigation_zero_depth fixtures.timed_out
              fixtures.eager_model "dry and crumbly" 4 12 _ eq_refl) as [_ H].
  destruct H as (_ & D & I); [reflexivity |]. split; [exact D | exact I].
Defined.

Lemma recommend_irrigation_duration_not_negative_witness :
  exists advice,
    binary64.recommend_irrigation fixtures.timed_out binary64.eager_model
      "dry and crumbly" (-3) 0 = Success advice
    /\ (0 <=? binary64.duration_hours advice)%float = true.
Proof.
  destruct (binary64.recommend_irrigation fixtures.timed_out
              binary64.eager_model "dry and crumbly" (-3) 0) as [advice | e] eqn:E;
    [| vm_compute in E; discriminate E].
  exists advice. split; [reflexivity |].
  exact (proj2 (recommend_irrigation_duration_not_negative _ _ _ _ _ _ E)).
Defined.

Lemma recommend_irrigation_model_probability_witness :
  exists advice,
    irrigation_service.recommend_irrigation fixtures.timed_out
      scenarios.one_class_model "slightly damp" 4 0 = Success advice
    /\ irrigation_service.model_probability advice = 0.5%Q.
Proof.
  eexists. split; [reflexivity |].
  exact (recommend_irrigation_model_probability fixtures.timed_out
           scenarios.one_class_model "slightly damp" 4 0 _ (Arr2 [[1.0]%Q])
           eq_refl eq_refl).
Defined.

Lemma recommend_irrigation_provider_down_witness :
  exists advice,
    irrigation_service.recommend_irrigation fixtures.timed_out
      fixtures.eager_model "dry and crumbly" 4
      (irrigation_service.forecast_rain fixtures.timed_out "Goa" "Panaji")
    = Success advice
    /\ irrigation_service.reason_weather advice = "No significant rain expected.".
Proof.
  destruct (irrigation_service.recommend_irrigation fixtures.timed_out
              fixtures.eager_model "dry and crumbly" 4
              (irrigation_service.forecast_rain fixtures.timed_out "Goa" "Panaji"))
    as [advice | e] eqn:E; [| vm_compute in E; discriminate E].
  exists advice. split; [reflexivity |].
  refine (proj2 (proj2 (recommend_irrigation_provider_down fixtures.timed_out
                          fixtures.eager_model "dry and crumbly" 4 "Goa" "Panaji"
                          (Thrown "ReadTimeout" "Read timed out. (read timeout=5)")
                          advice _ E))).
  intros url query timeout. reflexivity.
Defined.

Lemma recommended_crops_length_witness :
  exists advice,
    crop_service.recommend_crops fixtures.timed_out scenarios.seven_crops
      "Loam" "Medium" "Punjab" "Ludhiana" = Success advice
    /\ length (crop_service.recommended_crops advice) = 5%nat.
Proof.
  destruct (crop_service.recommend_crops fixtures.timed_out scenarios.seven_crops
              "Loam" "Medium" "Punjab" "Ludhiana") as [advice | e] eqn:E;
    [| vm_compute in E; discriminate E].
  exists advice. split; [reflexivity |].
  destruct (recommended_crops_length _ _ _ _ _ _ _ E)
    as (df_sample & row & rows & P & L & _).
  injection P as <- <-. exact L.
Defined.

Lemma recommended_crops_most_probable_witness :
  exists advice others,
    crop_service.recommend_crops fixtures.timed_out scenarios.seven_crops
      "Loam" "Medium" "Punjab" "Ludhiana" = Success advice
    /\ Forall (fun a => Forall (fun b => (crop_service.probability b
                                          <= crop_service.probability a)%Q)
                          others)
         (crop_service.recommended_crops advice).
Proof.
  destruct (crop_service.recommend_crops fixtures.timed_out scenarios.seven_crops
              "Loam" "Medium" "Punjab" "Ludhiana") as [advice | e] eqn:E;
    [| vm_compute in E; discriminate E].
  destruct (recommended_crops_most_probable _ _ _ _ _ _ _ E)
    as (df_sample & row & rows & others & _ & _ & F).
  exists advice, others. split; [reflexivity | exact F].
Defined.

Lemma recommended_crops_pairing_witness :
  exists advice c (i : nat),
    crop_service.recommend_crops fixtures.timed_out fixtures.three_crops
      "Loam" "Medium" "Punjab" "Ludhiana" = Success advice
    /\ c ∈ crop_service.recommended_crops advice
    /\ classes_ fixtures.three_crops !! i = Some (crop_service.crop c).
Proof.
  destruct (crop_service.recommend_crops fixtures.timed_out fixtures.three_crops
              "Loam" "Medium" "Punjab" "Ludhiana") as [advice | e] eqn:E;
    [| vm_compute in E; discriminate E].
  assert ({| crop_service.crop := "Rice"; crop_service.probability := 0.6 |}
          ∈ crop_service.recommended_crops advice) as M.
  { vm_compute in E. injection E as <-. apply list_elem_of_here. }
  destruct (recommended_crops_pairing _ _ _ _ _ _ _ _ E M)
    as (df_sample & row & rows & i & _ & L & _).
  exists advice,
    {| crop_service.crop := "Rice"; crop_service.probability := 0.6 |}, i.
  split; [reflexivity |]. split; [exact M | exact L].
Defined.

Lemma recommend_crops_provider_down_witness :
  exists advice,
    crop_service.recommend_crops fixtures.timed_out fixtures.three_crops
      "Loam" "Medium" "Punjab" "Ludhiana" = Success advice
    /\ weather_service.temperature (crop_service.weather advice) = PNum 25.0.
Proof.
  destruct (crop_service.recommend_crops fixtures.timed_out fixtures.three_crops
              "Loam" "Medium" "Punjab" "Ludhiana") as [advice | e] eqn:E;
    [| vm_compute in E; discriminate E].
  exists advice. split; [reflexivity |].
  assert (forall url query timeout,
             requests_get fixtures.timed_out url query timeout
             = Raise (Thrown "ReadTimeout" "Read timed out. (read timeout=5)"))
    as Down by reflexivity.
  destruct (recommend_crops_provider_down _ _ _ _ _ _ _ _ Down E) as [W _].
  now rewrite W.
Defined.

Lemma geocode_no_duplicates_witness :
  exists final,
    main2.geocode scenarios.search "Salem" = main2.Answer final
    /\ length final = 2%nat
    /\ ForallOrdPairs
         (fun p1 p2 =>
            main2.same_key (main2.place_key p1) (main2.place_key p2) = false)
         final.
Proof.
  eexists. split; [reflexivity |]. split; [reflexivity |].
  exact (geocode_no_duplicates scenarios.search "Salem" _ eq_refl).
Defined.

Lemma geocode_keeps_first_witness :
  exists final p,
    main2.geocode scenarios.search "Salem" = main2.Answer final
    /\ main2.place_of scenarios.salem_tn = Ok p
    /\ p ∈ final
    /\ main2.lat p = PNum 11.65.
Proof.
  destruct (geocode_keeps_first scenarios.search "Salem" _
              [scenarios.salem_tn; scenarios.salem_or; scenarios.salem_tn_again]
              0 scenarios.salem_tn
              (PStr "Salem", PStr "Tamil Nadu", PStr "India")
              eq_refl eq_refl eq_refl eq_refl) as (p & Hp & Hm & _).
  { intros j item' key' Hj. lia. }
  eexists _, p. split; [reflexivity |]. split; [exact Hp |]. split; [exact Hm |].
  vm_compute in Hp. injection Hp as <-. reflexivity.
Defined.

Lemma geocode_not_found_witness :
  main2.geocode scenarios.search_nothing "Atlantis"
  = main2.HTTPException 404 "Location not found".
Proof.
  apply (proj1 (geocode_not_found scenarios.search_nothing "Atlantis"
                  (PList []) eq_refl)).
  reflexivity.
Defined.

Lemma get_analytics_temperature_extremes_witness :
  exists out,
    main2.get_analytics (Ok scenarios.three_days) = main2.Answer out
    /\ (main2.minTemp out <= main2.maxTemp out)%Q
    /\ (main2.minTemp out == 28)%Q /\ (main2.maxTemp out == 35)%Q.
Proof.
  destruct (main2.get_analytics (Ok scenarios.three_days)) as [out | |] eqn:E;
    [| vm_compute in E; discriminate E ..].
  exists out. split; [reflexivity |].
  destruct (get_analytics_temperature_extremes _ _ E)
    as (body & forecast & data & days & ts & _ & _ & _ & _ & _ & _ & _ & _ & O).
  split; [exact O |].
  vm_compute in E. injection E as <-. split; reflexivity.
Defined.

Lemma get_analytics_extreme_days_witness :
  exists out,
    main2.get_analytics (Ok scenarios.three_days) = main2.Answer out
    /\ (0 <= main2.extremeDays out <= 3)%Z
    /\ main2.extremeDays out = 1%Z.
Proof.
  destruct (main2.get_analytics (Ok scenarios.three_days)) as [out | |] eqn:E;
    [| vm_compute in E; discriminate E ..].
  exists out. split; [reflexivity |].
  destruct (get_analytics_extreme_days _ _ E)
    as (body & forecast & data & days & B & F & D & I & _ & R).
  injection B as <-. vm_compute in F. injection F as <-.
  vm_compute in D. injection D as <-. vm_compute in I. injection I as <-.
  split; [exact R |]. vm_compute in E. injection E as <-. reflexivity.
Defined.

Lemma get_analytics_no_days_witness :
  main2.get_analytics (Ok (scenarios.forecast []))
  = main2.Unhandled ZeroDivisionError.
Proof.
  exact (get_analytics_no_days (Ok (scenarios.forecast [])) _ _ _
           eq_refl eq_refl eq_refl eq_refl).
Defined.
